(** * Verification of the YouTube keyword-search harvester (src/main.py)

    A shallow embedding of the harvesting pipeline of [src/main.py] and the
    properties of its specification.

    Conventions of the embedding.
    - Python [str] values are [string]s whose characters are the code points
      0..255; the character classes below ([py_isspace], [py_lower], ...)
      are Python's, restricted to that range.
    - Python [int] is [Z].  [None] is [None]; a Python exception that the
      source catches is written where the source catches it.
    - The library functions the source calls ([int], [float],
      [str.split], [re.search] with the source's fixed patterns,
      [urllib.parse.urlparse], [urllib.parse.parse_qs]) are embedded next to
      their callers, following CPython 3.12. *)

From Stdlib Require Import ZArith Ascii String Bool List Lia.
From stdpp Require Import base option list gmap strings.

Local Open Scope Z_scope.

(** ** Characters *)

Module Chr.

Definition code (c : ascii) : N := N_of_ascii c.

Definition between (lo hi : N) (c : ascii) : bool :=
  ((lo <=? code c)%N && (code c <=? hi)%N)%bool.

Definition is_digit : ascii -> bool := between 48 57.
Definition is_upper : ascii -> bool := between 65 90.
Definition is_lower : ascii -> bool := between 97 122.
Definition is_alpha (c : ascii) : bool := is_upper c || is_lower c.
Definition is_ascii (c : ascii) : bool := (code c <? 128)%N.

(** [str.isspace] on code points below 256: TAB..CR, FS..US, SPACE,
    NEL (0x85) and NBSP (0xA0). *)
Definition py_isspace (c : ascii) : bool :=
  between 9 13 c || between 28 32 c || (code c =? 133)%N || (code c =? 160)%N.

(** [\s] of [re] on a [str] pattern, for the ASCII characters that remain
    when the source applies it. *)
Definition re_space (c : ascii) : bool := between 9 13 c || between 28 32 c.

(** [str.lower] on code points below 256: A-Z, and the Latin-1 capitals
    0xC0..0xDE except the multiplication sign 0xD7. *)
Definition py_lower (c : ascii) : ascii :=
  if is_upper c then ascii_of_N (code c + 32)
  else if (between 192 222 c && negb (code c =? 215)%N)%bool
       then ascii_of_N (code c + 32)
       else c.

(** The characters that [int] skips around a literal: those of C's
    [isspace] (TAB..CR and SPACE), and NEL and NBSP, which [int] turns into
    spaces before it reads a string that is not ASCII.  The separators
    FS..US are white space for [str.strip] and not for [int]. *)
Definition int_space (c : ascii) : bool :=
  between 9 13 c || (code c =? 32)%N || (code c =? 133)%N || (code c =? 160)%N.

(** The class [A-Za-z0-9_-] of the identifier patterns. *)
Definition is_idchar (c : ascii) : bool :=
  is_alpha c || is_digit c || (code c =? 95)%N || (code c =? 45)%N.

Definition digit_val (c : ascii) : Z := Z.of_N (code c) - 48.

End Chr.

(** ** Strings: the [str] methods the source uses *)

Module Str.

Fixpoint all (p : ascii -> bool) (s : string) : bool :=
  match s with
  | EmptyString => true
  | String c r => p c && all p r
  end.

Fixpoint any (p : ascii -> bool) (s : string) : bool :=
  match s with
  | EmptyString => false
  | String c r => p c || any p r
  end.

Fixpoint map (f : ascii -> ascii) (s : string) : string :=
  match s with
  | EmptyString => EmptyString
  | String c r => String (f c) (map f r)
  end.

Fixpoint filter (p : ascii -> bool) (s : string) : string :=
  match s with
  | EmptyString => EmptyString
  | String c r => if p c then String c (filter p r) else filter p r
  end.

Definition has_char (c : ascii) (s : string) : bool := any (Ascii.eqb c) s.

(** [s.startswith(p)]. *)
Fixpoint startswith (p s : string) : bool :=
  match p, s with
  | EmptyString, _ => true
  | String a p', String b s' => Ascii.eqb a b && startswith p' s'
  | String _ _, EmptyString => false
  end.

(** [p in s] for strings. *)
Fixpoint contains (p s : string) : bool :=
  startswith p s ||
  match s with
  | EmptyString => false
  | String _ r => contains p r
  end.

Fixpoint drop (n : nat) (s : string) : string :=
  match n, s with
  | O, _ => s
  | S k, String _ r => drop k r
  | S _, EmptyString => EmptyString
  end.

Fixpoint take (n : nat) (s : string) : string :=
  match n, s with
  | O, _ => EmptyString
  | S k, String c r => String c (take k r)
  | S _, EmptyString => EmptyString
  end.

Fixpoint lstrip (p : ascii -> bool) (s : string) : string :=
  match s with
  | EmptyString => EmptyString
  | String c r => if p c then lstrip p r else s
  end.

(** Drops the longest suffix of characters in [p]. *)
Fixpoint rstrip (p : ascii -> bool) (s : string) : string :=
  match s with
  | EmptyString => EmptyString
  | String c r =>
      match rstrip p r with
      | EmptyString => if p c then EmptyString else String c EmptyString
      | r' => String c r'
      end
  end.

(** [s.strip()]. *)
Definition strip (s : string) : string :=
  rstrip Chr.py_isspace (lstrip Chr.py_isspace s).

(** [s.strip(c)] for a one-character argument. *)
Definition strip_char (c : ascii) (s : string) : string :=
  rstrip (Ascii.eqb c) (lstrip (Ascii.eqb c) s).

(** [s.lower()]. *)
Definition lower : string -> string := map Chr.py_lower.

(** The part of [s] before the first character in [p], and the part from
    that character on (empty when there is none). *)
Fixpoint break (p : ascii -> bool) (s : string) : string * string :=
  match s with
  | EmptyString => (EmptyString, EmptyString)
  | String c r =>
      if p c then (EmptyString, s)
      else let '(a, b) := break p r in (String c a, b)
  end.

(** [s.split(c)] for a one-character separator: never empty. *)
Fixpoint split (c : ascii) (s : string) : list string :=
  match s with
  | EmptyString => [EmptyString]
  | String a r =>
      if Ascii.eqb a c then EmptyString :: split c r
      else match split c r with
           | h :: t => String a h :: t
           | [] => [String a EmptyString]
           end
  end.

(** [s.split(c, 1)]: at most one cut. *)
Definition split1 (c : ascii) (s : string) : string * option string :=
  let '(a, b) := break (Ascii.eqb c) s in
  match b with
  | EmptyString => (a, None)
  | String _ r => (a, Some r)
  end.

(** [s.replace(pat, new)] for a non-empty [pat]: the occurrences are
    replaced from the left, without overlap.  [skip] counts the characters
    of a matched occurrence that are still to be passed over. *)
Fixpoint replace_from (skip : nat) (pat new s : string) : string :=
  match s with
  | EmptyString => EmptyString
  | String c r =>
      match skip with
      | S k => replace_from k pat new r
      | O =>
          if startswith pat s
          then new +:+ replace_from (String.length pat - 1) pat new r
          else String c (replace_from O pat new r)
      end
  end.

Definition replace (pat new s : string) : string := replace_from O pat new s.

End Str.

(** ** [int(str)] *)

(** The digits of a decimal literal, with single underscores allowed between
    digits; [seen] says that the previous character was a digit. *)
Fixpoint int_digits (acc : Z) (seen : bool) (s : string) : option Z :=
  match s with
  | EmptyString => if seen then Some acc else None
  | String c r =>
      if Chr.is_digit c then int_digits (10 * acc + Chr.digit_val c) true r
      else if (Ascii.eqb c "_" && seen)%bool then int_digits acc false r
      else None
  end.

(** [int(s)] for a string: surrounding whitespace, an optional sign, decimal
    digits.  [None] is [ValueError], which CPython also raises for a literal
    of more than 4300 digits. *)
Definition py_int (s : string) : option Z :=
  let t := Str.rstrip Chr.int_space (Str.lstrip Chr.int_space s) in
  let '(neg, body) :=
    match t with
    | String "-" r => (true, r)
    | String "+" r => (false, r)
    | _ => (false, t)
    end in
  if (4300 <? String.length (Str.filter Chr.is_digit body))%nat then None
  else n ← int_digits 0 false body; Some (if neg then - n else n).

(** ** Durations *)

(** [parse_iso8601_duration] (lines 132-148).  The argument is the string
    the callers pass; [None] results are both the early [return None] and
    the [except Exception] branch. *)
Definition parse_iso8601_duration (duration_str : string) : option Z :=
  if String.eqb duration_str "" then None
  else
    let s := Str.replace "PT" "" duration_str in
    '(h, s) ←
      (if Str.has_char "H" s then
         match Str.split "H" s with
         | p0 :: p1 :: _ => h ← py_int p0; Some (h, p1)
         | _ => None
         end
       else Some (0, s));
    '(m, s) ←
      (if Str.has_char "M" s then
         match Str.split "M" s with
         | p0 :: p1 :: _ => m ← py_int p0; Some (m, p1)
         | _ => None
         end
       else Some (0, s));
    sec ← (if Str.has_char "S" s then py_int (Str.replace "S" "" s) else Some 0);
    Some (h * 3600 + m * 60 + sec).

(** The duration fallback of [extract_video_metadata_hybrid]
    (lines 1086-1113): [duration_seconds] is the value found so far and
    [duration_text_dom] what the page probe returned ([None] for a null
    result, and for a probe that raised: both leave the value as it was). *)
Definition duration_from_dom (duration_seconds : option Z)
    (duration_text_dom : option string) : option Z :=
  let unset := match duration_seconds with None => true | Some d => d =? 0 end in
  if negb unset then duration_seconds
  else
    match duration_text_dom with
    | None => duration_seconds
    | Some t =>
        if String.eqb t "" then duration_seconds
        else if Str.startswith "PT" t then parse_iso8601_duration t
        else
          match Str.split ":" t with
          | [p0; p1] =>
              match py_int p0, py_int p1 with
              | Some a, Some b => Some (a * 60 + b)
              | _, _ => duration_seconds
              end
          | [p0; p1; p2] =>
              match py_int p0, py_int p1, py_int p2 with
              | Some a, Some b, Some c => Some (a * 3600 + b * 60 + c)
              | _, _, _ => duration_seconds
              end
          | _ => duration_seconds
          end
    end.

(** ** Binary64 arithmetic and [float(str)] *)

Module B64.

(** A finite, non-negative binary64 value [man * 2 ^ exp]. *)
Record t := mk { man : Z; exp : Z }.

(** [num / den] rounded to the nearest integer, ties to even
    ([0 <= num], [0 < den]). *)
Definition rne (num den : Z) : Z :=
  let q := num / den in
  let r := num mod den in
  if 2 * r <? den then q
  else if den <? 2 * r then q + 1
  else if Z.even q then q else q + 1.

(** The binary64 value nearest to the rational [p / q] ([0 <= p], [0 < q]),
    ties to even, with gradual underflow; [None] is an infinite result. *)
Definition round (p q : Z) : option t :=
  if p =? 0 then Some (mk 0 0)
  else
    let k := Z.log2 p - Z.log2 q in
    let ge_pow := if 0 <=? k then q * 2 ^ k <=? p else q <=? p * 2 ^ (- k) in
    let e0 := if ge_pow then k else k - 1 in
    let e := Z.max (e0 - 52) (-1074) in
    let m := if 0 <=? e then rne p (q * 2 ^ e) else rne (p * 2 ^ (- e)) q in
    if ((971 <? e) || ((e =? 971) && (2 ^ 53 <=? m)))%bool then None
    else Some (mk m e).

(** Multiplication by the (exactly representable) integer [c]. *)
Definition mul_int (x : t) (c : Z) : option t :=
  if 0 <=? exp x then round (man x * c * 2 ^ exp x) 1
  else round (man x * c) (2 ^ (- exp x)).

(** [int(x)]: truncation. *)
Definition to_int (x : t) : Z :=
  if 0 <=? exp x then man x * 2 ^ exp x else man x / 2 ^ (- exp x).

End B64.

Fixpoint dec_value (acc : Z) (s : string) : Z :=
  match s with
  | EmptyString => acc
  | String c r => dec_value (10 * acc + Chr.digit_val c) r
  end.

(** [float(s)] for the strings of digits and dots that the first group of
    the count pattern can hold: digits with at most one dot and at least
    one digit.  [None] is [ValueError]. *)
Definition py_float (s : string) : option B64.t :=
  match Str.split "." s with
  | [ip] =>
      if (Str.all Chr.is_digit ip && negb (String.eqb ip ""))%bool
      then B64.round (dec_value 0 ip) 1
      else None
  | [ip; fp] =>
      if (Str.all Chr.is_digit ip && Str.all Chr.is_digit fp
          && negb (String.eqb (ip +:+ fp) ""))%bool
      then B64.round (dec_value 0 (ip +:+ fp)) (10 ^ Z.of_nat (String.length fp))
      else None
  | _ => None
  end.

(** ** Count text *)

Definition is_numchar (c : ascii) : bool := Chr.is_digit c || Ascii.eqb c ".".

(** [re.search(r'([\d\.]+)\s*(k|m|b)?', t)] on an ASCII string: the
    leftmost, longest run of digits and dots, the whitespace after it, and
    the suffix letter when one follows.  [None] when [t] has no digit and no
    dot. *)
Definition count_search (t : string) : option (string * option ascii) :=
  match snd (Str.break is_numchar t) with
  | EmptyString => None
  | from =>
      let '(num, rest) := Str.break (fun c => negb (is_numchar c)) from in
      let suf :=
        match Str.lstrip Chr.re_space rest with
        | String c _ =>
            if (Ascii.eqb c "k" || Ascii.eqb c "m" || Ascii.eqb c "b")%bool
            then Some c else None
        | EmptyString => None
        end in
      Some (num, suf)
  end.

(** [parse_count_text_to_int] (lines 154-170). *)
Definition parse_count_text_to_int (text : option string) : option Z :=
  match text with
  | None => None
  | Some text =>
      if String.eqb text "" then None
      else
        let t := Str.replace "," "" (Str.strip (Str.lower text)) in
        let t := Str.filter Chr.is_ascii t in
        match count_search t with
        | None =>
            let d := Str.filter Chr.is_digit t in
            if String.eqb d "" then None else py_int d
        | Some (g1, suf) =>
            num ← py_float g1;
            match suf with
            | Some "k"%char => B64.to_int <$> B64.mul_int num 1000
            | Some "m"%char => B64.to_int <$> B64.mul_int num 1000000
            | Some "b"%char => B64.to_int <$> B64.mul_int num 1000000000
            | _ => Some (B64.to_int num)
            end
        end
  end.

(** ** URLs: [urllib.parse] *)

(** The library routine that is not embedded here: [unquote] is
    [urllib.parse.unquote] (percent-decoding, then UTF-8 decoding), of which
    the one fact used is its first line: a string without a percent sign is
    returned as it is. *)
Class UrlLib := {
  unquote : string -> string;
  unquote_plain : forall s, Str.has_char "%" s = false -> unquote s = s
}.

Record ParseResult := {
  scheme : string;
  netloc : string;
  path : string;
  params : string;
  query : string;
  fragment : string
}.

Definition is_c0_or_space (c : ascii) : bool := (Chr.code c <=? 32)%N.

Definition is_unsafe (c : ascii) : bool :=
  ((Chr.code c =? 9) || (Chr.code c =? 10) || (Chr.code c =? 13))%N.

Definition is_scheme_char (c : ascii) : bool :=
  Chr.is_alpha c || Chr.is_digit c
  || Ascii.eqb c "+" || Ascii.eqb c "-" || Ascii.eqb c ".".

Definition is_netloc_end (c : ascii) : bool :=
  Ascii.eqb c "/" || Ascii.eqb c "?" || Ascii.eqb c "#".

(** The scheme step of [urlsplit]: [i = url.find(':')], then the test on
    [url[0]] and on the characters of [url[:i]]. *)
Definition split_scheme (url : string) : string * string :=
  match Str.split1 ":" url with
  | (String c0 _ as pre, Some rest) =>
      if (Chr.is_alpha c0 && Str.all is_scheme_char pre)%bool
      then (Str.lower pre, rest)
      else (EmptyString, url)
  | _ => (EmptyString, url)
  end.

(** [_splitnetloc(url, 2)] after the test [url[:2] == '//']. *)
Definition split_netloc (url : string) : string * string :=
  if Str.startswith "//" url
  then Str.break is_netloc_end (Str.drop 2 url)
  else (EmptyString, url).

(** [url.split(c, 1)] under the guard [c in url]. *)
Definition cut (c : ascii) (url : string) : string * string :=
  match Str.split1 c url with
  | (a, Some b) => (a, b)
  | (a, None) => (a, EmptyString)
  end.

(** The part of [s] through its last slash, and the part after it. *)
Fixpoint rsplit_slash (s : string) : string * string :=
  match s with
  | EmptyString => (EmptyString, EmptyString)
  | String c r =>
      if Str.has_char "/" r
      then let '(a, b) := rsplit_slash r in (String c a, b)
      else if Ascii.eqb c "/" then (String c EmptyString, r)
      else (EmptyString, s)
  end.

(** [_splitparams]: the semicolon is looked for in the last path segment. *)
Definition splitparams (url : string) : string * string :=
  let '(dir, seg) := rsplit_slash url in
  match Str.split1 ";" seg with
  | (a, Some b) => (dir +:+ a, b)
  | (_, None) => (url, EmptyString)
  end.

Definition uses_params : list string :=
  [""; "ftp"; "hdl"; "prospero"; "http"; "imap"; "https"; "shttp"; "rtsp";
   "rtspu"; "sip"; "sips"; "mms"; "sftp"; "tel"].

(** *** Bracketed hosts: [ipaddress] and [_check_bracketed_netloc] *)

Definition is_hex (c : ascii) : bool :=
  Chr.is_digit c || Chr.between 97 102 c || Chr.between 65 70 c.

(** [_parse_octet] succeeds. *)
Definition octet_ok (o : string) : bool :=
  negb (String.eqb o "") && Str.all Chr.is_digit o
  && (String.length o <=? 3)%nat
  && (String.eqb o "0" || negb (Str.startswith "0" o))
  && (dec_value 0 o <=? 255).

(** [IPv4Address(s)] succeeds. *)
Definition ipv4_ok (s : string) : bool :=
  negb (Str.has_char "/" s) && negb (String.eqb s "")
  && match Str.split "." s with
     | [a; b; c; d] => forallb octet_ok [a; b; c; d]
     | _ => false
     end.

(** [_parse_hextet] succeeds. *)
Definition hextet_ok (h : string) : bool :=
  Str.all is_hex h && (String.length h <=? 4)%nat && negb (String.eqb h "").

(** [IPv6Address._ip_int_from_string(addr)] succeeds.  An IPv4 suffix is
    replaced by its two hextets, which are well formed whatever its value:
    they are written as zeros. *)
Definition ipv6_parts_ok (addr : string) : bool :=
  if String.eqb addr "" then false
  else
    let parts := Str.split ":" addr in
    if (List.length parts <? 3)%nat then false
    else
      let tl := List.last parts EmptyString in
      match (if Str.has_char "." tl
             then if ipv4_ok tl then Some (List.removelast parts ++ ["0"; "0"]) else None
             else Some parts) with
      | None => false
      | Some parts =>
          let n := List.length parts in
          if (9 <? n)%nat then false
          else
            let head_empty := String.eqb (List.nth 0 parts EmptyString) "" in
            let last_empty := String.eqb (List.last parts EmptyString) "" in
            match List.filter (fun i => String.eqb (List.nth i parts "x") "")
                    (List.seq 1 (n - 2)) with
            | _ :: _ :: _ => false
            | [skip_index] =>
                let parts_hi := skip_index in
                let parts_lo := (n - skip_index - 1)%nat in
                if (head_empty && negb (parts_hi - 1 =? 0)%nat)%bool then false
                else
                  let parts_hi := if head_empty then (parts_hi - 1)%nat else parts_hi in
                  if (last_empty && negb (parts_lo - 1 =? 0)%nat)%bool then false
                  else
                    let parts_lo := if last_empty then (parts_lo - 1)%nat else parts_lo in
                    if (8 <=? parts_hi + parts_lo)%nat then false
                    else
                      forallb hextet_ok (List.firstn parts_hi parts)
                      && forallb hextet_ok (List.skipn (n - parts_lo) parts)
            | [] =>
                (n =? 8)%nat && negb head_empty && negb last_empty
                && forallb hextet_ok parts
            end
      end.

(** [IPv6Address(s)] succeeds: no slash, a scope after a percent sign that
    is not empty and has no percent sign, and a well-formed address. *)
Definition ipv6_ok (s : string) : bool :=
  if Str.has_char "/" s then false
  else
    match Str.split1 "%" s with
    | (addr, None) => ipv6_parts_ok addr
    | (addr, Some scope_id) =>
        negb (String.eqb scope_id "") && negb (Str.has_char "%" scope_id)
        && ipv6_parts_ok addr
    end.

(** [re.match(r"\Av[a-fA-F0-9]+\..+\Z", h)] for [h] = "v" followed by
    [rest]. *)
Definition ipvfuture_ok (rest : string) : bool :=
  let '(hx, tl) := Str.break (fun c => negb (is_hex c)) rest in
  match tl with
  | String "." r =>
      negb (String.eqb hx "") && negb (String.eqb r "")
      && negb (Str.any (fun c => (Chr.code c =? 10)%N) r)
  | _ => false
  end.

(** [_check_bracketed_host(hostname)] returns; [false] is [ValueError]. *)
Definition check_bracketed_host (hostname : string) : bool :=
  match hostname with
  | String "v" rest => ipvfuture_ok rest
  | _ => if ipv4_ok hostname then false else ipv6_ok hostname
  end.

(** [s.rpartition(c)[2]]: the part after the last [c], all of [s] when it
    has none. *)
Fixpoint after_last (c : ascii) (s : string) : string :=
  match s with
  | EmptyString => EmptyString
  | String a r =>
      if Str.has_char c r then after_last c r
      else if Ascii.eqb a c then r else s
  end.

(** [_check_bracketed_netloc(netloc)] returns. *)
Definition check_bracketed_netloc (nl : string) : bool :=
  let hostname_and_port := after_last "@" nl in
  match Str.split1 "[" hostname_and_port with
  | (before_bracket, Some bracketed) =>
      if negb (String.eqb before_bracket "") then false
      else
        let '(hostname, port) := cut "]" bracketed in
        if (negb (String.eqb port "") && negb (Str.startswith ":" port))%bool
        then false
        else check_bracketed_host hostname
  | (_, None) =>
      check_bracketed_host (fst (Str.break (Ascii.eqb ":") hostname_and_port))
  end.

(** The bracket tests of [urlsplit] on the network location; [false] is
    [ValueError]. *)
Definition netloc_brackets_ok (nl : string) : bool :=
  match Str.has_char "[" nl, Str.has_char "]" nl with
  | true, false | false, true => false
  | true, true => check_bracketed_netloc nl
  | false, false => true
  end.

Section Url.
Context `{UrlLib}.

(** [urllib.parse.urlparse] (CPython 3.12: [urlsplit], then the parameters
    of the last path segment).  [None] is [ValueError].  [_checknetloc] is
    left out: it only rejects characters above code point 255.  The bracket
    tests are those of the releases that have [_check_bracketed_netloc]. *)
Definition urlparse (url : string) : option ParseResult :=
  let url := Str.filter (fun c => negb (is_unsafe c)) (Str.lstrip is_c0_or_space url) in
  let '(sch, url) := split_scheme url in
  let '(nl, url) := split_netloc url in
  if negb (netloc_brackets_ok nl) then None
  else
    let '(url, frag) := cut "#" url in
    let '(url, q) := cut "?" url in
    let '(url, prm) :=
      if (bool_decide (sch ∈ uses_params) && Str.has_char ";" url)%bool
      then splitparams url else (url, EmptyString) in
    Some {| scheme := sch; netloc := nl; path := url; params := prm;
            query := q; fragment := frag |}.

(** [parse_qsl] with its default arguments: the fields between ampersands
    that have an equals sign and a non-empty value, decoded. *)
Definition parse_field (name_value : string) : option (string * string) :=
  match Str.split1 "=" name_value with
  | (n, Some v) =>
      if String.eqb v "" then None
      else Some (unquote (Str.replace "+" " " n), unquote (Str.replace "+" " " v))
  | (_, None) => None
  end.

Definition parse_qsl (qs : string) : list (string * string) :=
  omap parse_field (Str.split "&" qs).

(** [parse_qs(qs)[name]], the values of [name] in order; the key is absent
    when the list is empty. *)
Definition parse_qs (qs : string) (name : string) : list string :=
  snd <$> List.filter (fun nv => String.eqb (fst nv) name) (parse_qsl qs).

(** [re.search(r"/shorts/([A-Za-z0-9_-]{11})", s)], group 1. *)
Definition shorts_at (s : string) : option string :=
  if Str.startswith "/shorts/" s then
    let id := Str.take 11 (Str.drop 8 s) in
    if ((String.length id =? 11)%nat && Str.all Chr.is_idchar id)%bool
    then Some id else None
  else None.

Fixpoint search_shorts (s : string) : option string :=
  match s with
  | EmptyString => None
  | String _ r =>
      match shorts_at s with
      | Some id => Some id
      | None => search_shorts r
      end
  end.

(** [url.split("#")[0]]. *)
Definition before_hash (url : string) : string := fst (Str.break (Ascii.eqb "#") url).

(** [path.strip("/").split("/")[0]]. *)
Definition first_segment (p : string) : string :=
  fst (Str.break (Ascii.eqb "/") (Str.strip_char "/" p)).

(** [clean_video_url] (lines 391-420). *)
Definition clean_video_url (url : string) : string :=
  if String.eqb url "" then url
  else
    match urlparse url with
    | None => before_hash url
    | Some parsed =>
        match search_shorts (path parsed) with
        | Some id => "https://www.youtube.com/shorts/" +:+ id
        | None =>
            let vid := first_segment (path parsed) in
            if (negb (String.eqb (netloc parsed) "")
                && Str.contains "youtu.be" (netloc parsed)
                && negb (String.eqb vid ""))%bool
            then "https://www.youtube.com/watch?v=" +:+ vid
            else
              match
                (if (Str.contains "watch" (path parsed)
                     && negb (String.eqb (query parsed) ""))%bool
                 then parse_qs (query parsed) "v" else [])
              with
              | v :: _ => "https://www.youtube.com/watch?v=" +:+ v
              | [] => before_hash url
              end
        end
    end.

(** [extract_video_id] (lines 423-435). *)
Definition extract_video_id (url : string) : option string :=
  match urlparse url with
  | None => None
  | Some parsed =>
      if (negb (String.eqb (netloc parsed) "")
          && Str.contains "youtu.be" (netloc parsed))%bool
      then Some (first_segment (path parsed))
      else
        match
          (if (Str.contains "/watch" (path parsed)
               && negb (String.eqb (query parsed) ""))%bool
           then parse_qs (query parsed) "v" else [])
        with
        | v :: _ => Some v
        | [] => search_shorts (path parsed)
        end
  end.

(** [is_shorts_url], [is_video_url], [is_channel_url]. *)
Definition is_shorts_url (url : string) : bool :=
  Str.contains "/shorts/" (Str.lower url).

Definition is_video_url (url : string) : bool :=
  let u := Str.lower url in
  Str.contains "watch?v=" u || Str.contains "/shorts/" u || Str.contains "youtu.be/" u.

Definition is_channel_url (url : string) : bool :=
  let u := Str.lower url in
  Str.contains "/@" u || Str.contains "/channel/" u || Str.contains "/c/" u.

End Url.

(** An instance for URLs whose percent escapes, if any, are ASCII: an
    escape of a code below 128 is decoded, an ill-formed one is kept. *)
Definition hex_val (c : ascii) : option N :=
  if Chr.is_digit c then Some (Chr.code c - 48)%N
  else if Chr.between 97 102 c then Some (Chr.code c - 87)%N
  else if Chr.between 65 70 c then Some (Chr.code c - 55)%N
  else None.

Fixpoint pct_decode (s : string) : string :=
  match s with
  | EmptyString => EmptyString
  | String c r =>
      if Ascii.eqb c "%" then
        match r with
        | String a (String b r') =>
            match hex_val a, hex_val b with
            | Some x, Some y =>
                if (16 * x + y <? 128)%N
                then String (ascii_of_N (16 * x + y)) (pct_decode r')
                else String c (pct_decode r)
            | _, _ => String c (pct_decode r)
            end
        | _ => String c (pct_decode r)
        end
      else String c (pct_decode r)
  end.

Definition ascii_urls : UrlLib.
Proof.
  refine {| unquote := pct_decode |}.
  induction s as [|c r IH]; [reflexivity|].
  unfold Str.has_char in *. cbn [Str.any pct_decode]. intros Hc.
  apply orb_false_iff in Hc as [Hc Hr].
  rewrite Ascii.eqb_sym, Hc. f_equal. exact (IH Hr).
Defined.


(** ** The URL forms of the specification's canonicalization property *)

(** An item identifier: eleven characters of [A-Za-z0-9_-]. *)
Definition is_item_id (id : string) : bool :=
  ((String.length id =? 11)%nat && Str.all Chr.is_idchar id)%bool.

(** A watch link with extra query parameters, a short link and a shorts
    path for the identifier [id]. *)
Definition watch_link (id extra : string) : string :=
  "https://www.youtube.com/watch?v=" +:+ id +:+ "&" +:+ extra.

Definition short_link (id : string) : string := "https://youtu.be/" +:+ id.

Definition shorts_path (id : string) : string :=
  "https://www.youtube.com/shorts/" +:+ id.

(** Character classes of the URLs above: host names, plain paths, and the
    characters that [urlsplit] does not remove. *)
Definition is_hostchar (c : ascii) : bool := Chr.is_idchar c || Ascii.eqb c ".".
Definition is_pathchar (c : ascii) : bool := Chr.is_idchar c || Ascii.eqb c "/".
Definition is_safe (c : ascii) : bool := negb (is_unsafe c).

(** ** Decimal rendering and [seconds_to_hms] *)

Definition digit_char (d : Z) : ascii := ascii_of_N (Z.to_N (48 + d)).

(** The decimal digits of [n] ([0 <= n]), most significant first, written
    before [acc].  [fuel] bounds the number of digits after the first. *)
Fixpoint dec_digits (fuel : nat) (n : Z) (acc : string) : string :=
  let acc' := String (digit_char (n mod 10)) acc in
  match fuel with
  | O => acc'
  | S k => if n <? 10 then acc' else dec_digits k (n / 10) acc'
  end.

Definition dec_of_nat (n : Z) : string :=
  dec_digits (Z.to_nat (Z.log2 n)) n EmptyString.

(** [str(n)] for an [int]: [None] is the [ValueError] that CPython raises
    for a decimal conversion of more than 4300 digits. *)
Definition py_str_int (n : Z) : option string :=
  let d := dec_of_nat (Z.abs n) in
  if (4300 <? String.length d)%nat then None
  else Some (if n <? 0 then "-" +:+ d else d).

(** [format(n, "02d")]: zeros are added after the sign up to a width of
    two, so only a single digit gets one. *)
Definition format_02d (n : Z) : option string :=
  s ← py_str_int n;
  Some (if (String.length s <? 2)%nat then "0" +:+ s else s).

(** [seconds_to_hms] (lines 173-181).  The callers pass an [int] or
    [None]; [//] and [%] are the floor division and its remainder, as
    [Z.div] and [Z.modulo] are for a positive divisor. *)
Definition seconds_to_hms (seconds : option Z) : option string :=
  match seconds with
  | None => None
  | Some s =>
      let h := s / 3600 in
      let m := (s mod 3600) / 60 in
      let sec := s mod 60 in
      if 0 <? h then
        hh ← format_02d h; mm ← format_02d m; ss ← format_02d sec;
        Some (hh +:+ ":" +:+ mm +:+ ":" +:+ ss)
      else
        mm ← format_02d m; ss ← format_02d sec;
        Some (mm +:+ ":" +:+ ss)
  end.

(** ** Duration codes *)

(** The duration code with the given optional hour, minute and second
    fields: a field is its decimal value and its unit letter. *)
Definition iso_part (v : option Z) (u : ascii) : string :=
  match v with
  | Some n => dec_of_nat n +:+ String u EmptyString
  | None => EmptyString
  end.

Definition iso_value (v : option Z) : Z :=
  match v with Some n => n | None => 0 end.

Definition iso_ok (v : option Z) : Prop :=
  match v with Some n => 0 <= n < 10 ^ 4300 | None => True end.

Definition iso_duration (h m s : option Z) : string :=
  "PT" +:+ iso_part h "H" +:+ iso_part m "M" +:+ iso_part s "S".

(** ** Records and [save_dataset] *)

(** The values of the two fields that [save_dataset] reads: [None], a
    [bool], an [int] or a [str], the hashable scalars of a JSON record. *)
Inductive pyval :=
  | PNone
  | PBool (b : bool)
  | PInt (n : Z)
  | PStr (s : string).

(** [bool(v)]. *)
Definition truthy (v : pyval) : bool :=
  match v with
  | PNone => false
  | PBool b => b
  | PInt n => negb (n =? 0)
  | PStr s => negb (String.eqb s "")
  end.

(** [a or b]. *)
Definition py_or (a b : pyval) : pyval := if truthy a then a else b.

(** The element of a [set] that a value is: [True] and [1], [False] and [0]
    are equal and hash alike. *)
Inductive pykey :=
  | KNone
  | KInt (n : Z)
  | KStr (s : string).

Definition key (v : pyval) : pykey :=
  match v with
  | PNone => KNone
  | PBool b => KInt (if b then 1 else 0)
  | PInt n => KInt n
  | PStr s => KStr s
  end.

#[global] Instance pykey_eq_dec : EqDecision pykey.
Proof. solve_decision. Defined.

#[global] Instance pykey_countable : Countable pykey.
Proof.
  refine (inj_countable'
            (fun k => match k with
                      | KNone => None
                      | KInt n => Some (inl n)
                      | KStr s => Some (inr s)
                      end)
            (fun x => match x with
                      | None => KNone
                      | Some (inl n) => KInt n
                      | Some (inr s) => KStr s
                      end) _).
  intros []; reflexivity.
Defined.

(** A record is a [dict] with string keys; [it.get(k)] is [None] for a
    missing key. *)
Definition item := gmap string pyval.

Definition get (it : item) (k : string) : pyval := default PNone (it !! k).

(** [it.get("id") or it.get("video_id")]. *)
Definition item_vid (it : item) : pyval := py_or (get it "id") (get it "video_id").

(** One round of the loop of [save_dataset] (lines 198-207) on the pair of
    [SAVED_IDS] and [new_items]. *)
Definition save_step (st : gset pykey * list item) (it : item)
    : gset pykey * list item :=
  let vid := item_vid it in
  if negb (truthy vid) then (st.1, st.2 ++ [it])
  else if bool_decide (key vid ∈ st.1) then st
  else ({[key vid]} ∪ st.1, st.2 ++ [it]).

(** [save_dataset] (lines 193-232): the new [SAVED_IDS] and the list
    [new_items], which lines 208-232 write to the sink (the dataset, in
    chunks of 100, or the local file) when it is not empty. *)
Definition save_dataset (items : list item) (SAVED_IDS : gset pykey)
    : gset pykey * list item :=
  foldl save_step (SAVED_IDS, []) items.

(** A run: the calls of [save_dataset] in order, from the [SAVED_IDS] at
    hand; the second component is all that was handed to the sink. *)
Fixpoint save_run (calls : list (list item)) (SAVED_IDS : gset pykey)
    : gset pykey * list item :=
  match calls with
  | [] => (SAVED_IDS, [])
  | items :: rest =>
      let r := save_dataset items SAVED_IDS in
      let r' := save_run rest r.1 in
      (r'.1, r.2 ++ r'.2)
  end.

(** The identifiers of the records of a list that have one. *)
Definition vid_keys (l : list item) : list pykey :=
  omap (fun it => if truthy (item_vid it) then Some (key (item_vid it)) else None) l.

(** Both fields absent or null. *)
Definition no_id (it : item) : bool :=
  match get it "id", get it "video_id" with
  | PNone, PNone => true
  | _, _ => false
  end.

(** ** The result caps of [scrape_channel_all_videos] and [main] *)

(** [l[:n]]: the first [n] elements, and for a negative [n] all but the
    last [-n]. *)
Definition py_slice_to {A} (n : Z) (l : list A) : list A :=
  if 0 <=? n then take (Z.to_nat n) l
  else take (List.length l - Z.to_nat (- n)) l.

(** What a call of [advanced_extract_video] gives its caller: a row, with a
    truthy ["id"] or not, an empty row, or an exception. *)
Inductive extraction :=
  | Row (has_id : bool)
  | EmptyRow
  | ExtractRaises.

(** [row and row.get("id")]. *)
Definition kept (e : extraction) : bool :=
  match e with Row true => true | _ => false end.

(** The extraction loop of [scrape_channel_all_videos] (lines 1453-1463):
    each candidate URL comes with the value of [STOP_FLAG] read at its
    round and with the outcome of its extraction; the result is
    [len(out_rows)]. *)
Fixpoint channel_rows (steps : list (bool * extraction)) : nat :=
  match steps with
  | [] => O
  | (stop, e) :: rest =>
      if stop then O
      else ((if kept e then 1 else 0) + channel_rows rest)%nat
  end.

(** Lines 1449-1466: [total_cap] is [int(input_options.get("maxResults", 50))]. *)
Definition scrape_channel_rows (total_cap : Z)
    (all_video_urls : list (bool * extraction)) : nat :=
  channel_rows (py_slice_to total_cap all_video_urls).

(** A start URL or search term of [main], with what its scraper does: a
    channel with its candidate URLs, a video with its extraction, a search
    with the number of rows that [scrape_search] returns, or an exception
    of the scraper. *)
Inductive target :=
  | Channel (all_video_urls : list (bool * extraction))
  | Video (e : extraction)
  | Search (results : nat)
  | Fails.

(** What a target adds to [total_scraped] (lines 1921-1933, 1943-1947). *)
Definition target_rows (global_max : Z) (t : target) : Z :=
  match t with
  | Channel urls => Z.of_nat (scrape_channel_rows global_max urls)
  | Video e => if kept e then 1 else 0
  | Search n => Z.of_nat n
  | Fails => 0
  end.

(** The two loops of [main] (lines 1914-1933 and 1936-1947): each target
    comes with the value of [STOP_FLAG] read at the head of its round. *)
Fixpoint main_loop (global_max : Z) (targets : list (bool * target))
    (total_scraped : Z) : Z :=
  match targets with
  | [] => total_scraped
  | (stop, t) :: rest =>
      if stop then total_scraped
      else if global_max <=? total_scraped then total_scraped
      else main_loop global_max rest (total_scraped + target_rows global_max t)
  end.

(** Lines 1908-1950: [total_scraped] at the end; [stop] is [STOP_FLAG] at
    line 1934. *)
Definition main_total (global_max : Z) (all_urls : list (bool * target))
    (stop : bool) (search_terms : list (bool * target)) : Z :=
  let total_scraped := main_loop global_max all_urls 0 in
  if (negb (bool_decide (search_terms = [])) && negb stop
      && (total_scraped <? global_max))%bool
  then main_loop global_max search_terms total_scraped
  else total_scraped.

(** The largest number of rows that one target can add. *)
Definition target_bound (global_max : Z) (t : target) : Z :=
  match t with
  | Channel _ => Z.max 0 global_max
  | Video _ => 1
  | Search n => Z.of_nat n
  | Fails => 0
  end.

(** ** Harvesting candidate URLs *)


Section Harvest.
Context `{UrlLib}.









End Harvest.







(** * Properties *)

(** ** Characters and strings *)

(** Facts about one character are settled by running through the 256
    characters. *)
Ltac by_chars :=
  intros [[] [] [] [] [] [] [] []]; vm_compute; (reflexivity || congruence || tauto).

Section StrFacts.
Implicit Types (p q : ascii -> bool) (s t : string) (c : ascii).

Lemma app_cons c s t : String c s +:+ t = String c (s +:+ t).
Proof. reflexivity. Qed.

Lemma app_nil s : EmptyString +:+ s = s.
Proof. reflexivity. Qed.

Lemma app_nil_r s : s +:+ EmptyString = s.
Proof. induction s as [|c r IH]; [reflexivity|]. now rewrite app_cons, IH. Qed.

Lemma app_assoc' s t u : (s +:+ t) +:+ u = s +:+ t +:+ u.
Proof. induction s as [|c r IH]; [reflexivity|]. now rewrite !app_cons, IH. Qed.

Lemma any_false_all p s : Str.any p s = false <-> Str.all (fun c => negb (p c)) s = true.
Proof.
  induction s as [|c r IH]; cbn [Str.any Str.all]; [tauto|].
  rewrite orb_false_iff, andb_true_iff, negb_true_iff. tauto.
Qed.

Lemma all_impl p q s :
  (forall c, p c = true -> q c = true) -> Str.all p s = true -> Str.all q s = true.
Proof.
  intros Hpq. induction s as [|c r IH]; cbn [Str.all]; [tauto|].
  rewrite !andb_true_iff. intros [? ?]. auto.
Qed.

Lemma any_impl p q s :
  (forall c, p c = true -> q c = true) -> Str.any p s = true -> Str.any q s = true.
Proof.
  intros Hpq. induction s as [|c r IH]; cbn [Str.any]; [tauto|].
  rewrite !orb_true_iff. intros [? | ?]; auto.
Qed.

Lemma any_app p s t : Str.any p (s +:+ t) = Str.any p s || Str.any p t.
Proof.
  induction s as [|c r IH]; simpl; [reflexivity|].
  now rewrite IH, orb_assoc.
Qed.

Lemma all_app p s t : Str.all p (s +:+ t) = Str.all p s && Str.all p t.
Proof.
  induction s as [|c r IH]; simpl; [reflexivity|].
  now rewrite IH, andb_assoc.
Qed.



Lemma filter_all_id p s : Str.all p s = true -> Str.filter p s = s.
Proof.
  induction s as [|c r IH]; cbn [Str.all Str.filter]; [reflexivity|].
  intros [Hc Hr]%andb_true_iff. rewrite Hc. f_equal. auto.
Qed.

Lemma filter_app p s t : Str.filter p (s +:+ t) = Str.filter p s +:+ Str.filter p t.
Proof.
  induction s as [|c r IH]; simpl; [reflexivity|].
  destruct (p c); simpl; now rewrite IH.
Qed.





Lemma any_replace_empty p pat s k :
  Str.any p (Str.replace_from k pat EmptyString s) = true -> Str.any p s = true.
Proof.
  revert k. induction s as [|c r IH]; intros k; cbn [Str.replace_from Str.any]; [tauto|].
  destruct k as [|k].
  - destruct (Str.startswith pat (String c r)); cbn [String.append Str.any];
      rewrite ?orb_true_iff; intros; intuition eauto.
  - rewrite orb_true_iff. eauto.
Qed.

Lemma break_fst_all p s : Str.all (fun c => negb (p c)) (fst (Str.break p s)) = true.
Proof.
  induction s as [|c r IH]; cbn [Str.break]; [reflexivity|].
  destruct (p c) eqn:E; [reflexivity|].
  destruct (Str.break p r) as [a b]. cbn [fst Str.all] in *. now rewrite E, IH.
Qed.


Lemma break_none p s :
  Str.any p s = false -> Str.break p s = (s, EmptyString).
Proof.
  induction s as [|c r IH]; cbn [Str.any Str.break]; [reflexivity|].
  intros [Hc Hr]%orb_false_iff. now rewrite Hc, (IH Hr).
Qed.

Lemma break_snd_head p s c r : snd (Str.break p s) = String c r -> p c = true.
Proof.
  induction s as [|a s IH]; cbn [Str.break]; [discriminate|].
  destruct (p a) eqn:E.
  - cbn [snd]. now intros [= <- _].
  - destruct (Str.break p s) as [x y]. cbn [snd] in *. auto.
Qed.

(** Cutting at the first [c] when the part before it has none. *)
Lemma break_app_found p s c t :
  Str.any p s = false -> p c = true ->
  Str.break p (s +:+ String c t) = (s, String c t).
Proof.
  intros Hs Hc. induction s as [|a r IH]; rewrite ?app_cons, ?app_nil; cbn [Str.break].
  - now rewrite Hc.
  - cbn [Str.any] in Hs. apply orb_false_iff in Hs as [Ha Hr].
    now rewrite Ha, (IH Hr).
Qed.

Lemma split_app_found c s t :
  Str.has_char c s = false ->
  Str.split c (s +:+ String c t) = s :: Str.split c t.
Proof.
  unfold Str.has_char. induction s as [|a r IH]; rewrite ?app_cons, ?app_nil;
    cbn [Str.split Str.any].
  - now rewrite Ascii.eqb_refl.
  - intros [Ha Hr]%orb_false_iff. rewrite Ascii.eqb_sym, Ha, (IH Hr). reflexivity.
Qed.

Lemma split_none c s : Str.has_char c s = false -> Str.split c s = [s].
Proof.
  unfold Str.has_char. induction s as [|a r IH]; cbn [Str.split Str.any]; [reflexivity|].
  intros [Ha Hr]%orb_false_iff. now rewrite Ascii.eqb_sym, Ha, (IH Hr).
Qed.



Lemma replace_from_no_match pat new s :
  match pat with String a _ => Str.has_char a s = false | EmptyString => False end ->
  Str.replace_from O pat new s = s.
Proof.
  destruct pat as [|a pat]; [tauto|]. unfold Str.has_char.
  induction s as [|c r IH]; cbn [Str.replace_from Str.any Str.startswith]; [reflexivity|].
  intros [Hc Hr]%orb_false_iff. rewrite Hc. cbn [andb]. f_equal. auto.
Qed.

End StrFacts.

(** ** Durations and counts *)

(** C7. Duration normalization to whole seconds: the machine-readable code
    "PT1H2M3S" gives 3723 (by [parse_iso8601_duration], and by the page
    fallback that calls it), and the colon-separated display strings
    "10:05" and "1:02:03" give 605 and 3723. *)
Theorem duration_examples :
  parse_iso8601_duration "PT1H2M3S" = Some 3723
  /\ duration_from_dom None (Some "PT1H2M3S") = Some 3723
  /\ duration_from_dom None (Some "10:05") = Some 605
  /\ duration_from_dom None (Some "1:02:03") = Some 3723.
Proof. repeat split; vm_compute; reflexivity. Qed.









(** ** URLs *)


Lemma hostchar_safe c : is_hostchar c = true -> is_safe c = true.
Proof. revert c. by_chars. Qed.
Lemma hostchar_not_end c : is_hostchar c = true -> negb (is_netloc_end c) = true.
Proof. revert c. by_chars. Qed.
Lemma hostchar_not_open c : is_hostchar c = true -> negb (Ascii.eqb "[" c) = true.
Proof. revert c. by_chars. Qed.
Lemma hostchar_not_close c : is_hostchar c = true -> negb (Ascii.eqb "]" c) = true.
Proof. revert c. by_chars. Qed.
Lemma pathchar_safe c : is_pathchar c = true -> is_safe c = true.
Proof. revert c. by_chars. Qed.
Lemma pathchar_not_hash c : is_pathchar c = true -> negb (Ascii.eqb "#" c) = true.
Proof. revert c. by_chars. Qed.
Lemma pathchar_not_qmark c : is_pathchar c = true -> negb (Ascii.eqb "?" c) = true.
Proof. revert c. by_chars. Qed.
Lemma pathchar_not_semi c : is_pathchar c = true -> negb (Ascii.eqb ";" c) = true.
Proof. revert c. by_chars. Qed.
Lemma idchar_pathchar c : Chr.is_idchar c = true -> is_pathchar c = true.
Proof. revert c. by_chars. Qed.
Lemma idchar_hostchar c : Chr.is_idchar c = true -> is_hostchar c = true.
Proof. revert c. by_chars. Qed.
Lemma idchar_not_slash c : Chr.is_idchar c = true -> negb (Ascii.eqb "/" c) = true.
Proof. revert c. by_chars. Qed.
Lemma idchar_not_amp c : Chr.is_idchar c = true -> negb (Ascii.eqb "&" c) = true.
Proof. revert c. by_chars. Qed.
Lemma idchar_not_eq c : Chr.is_idchar c = true -> negb (Ascii.eqb "=" c) = true.
Proof. revert c. by_chars. Qed.
Lemma idchar_not_plus c : Chr.is_idchar c = true -> negb (Ascii.eqb "+" c) = true.
Proof. revert c. by_chars. Qed.
Lemma idchar_not_pct c : Chr.is_idchar c = true -> negb (Ascii.eqb "%" c) = true.
Proof. revert c. by_chars. Qed.
Lemma idchar_not_hash c : Chr.is_idchar c = true -> negb (Ascii.eqb "#" c) = true.
Proof. revert c. by_chars. Qed.
Lemma idchar_safe c : Chr.is_idchar c = true -> is_safe c = true.
Proof. revert c. by_chars. Qed.

(** From a class that holds of every character of [s] to the absence of a
    character outside the class. *)
Lemma all_no_char p a s :
  (forall c, p c = true -> negb (Ascii.eqb a c) = true) ->
  Str.all p s = true -> Str.has_char a s = false.
Proof.
  intros Hp Hs. apply any_false_all. exact (all_impl _ _ _ Hp Hs).
Qed.

Lemma all_no_class p q s :
  (forall c, p c = true -> negb (q c) = true) ->
  Str.all p s = true -> Str.any q s = false.
Proof.
  intros Hp Hs. apply any_false_all. exact (all_impl _ _ _ Hp Hs).
Qed.

Lemma cut_none c s : Str.has_char c s = false -> cut c s = (s, EmptyString).
Proof.
  intros Hs. unfold cut, Str.split1. now rewrite (break_none _ _ Hs).
Qed.

Lemma cut_found c s t : Str.has_char c s = false -> cut c (s +:+ String c t) = (s, t).
Proof.
  intros Hs. unfold cut, Str.split1.
  now rewrite (break_app_found _ _ c t Hs (Ascii.eqb_refl c)).
Qed.

Lemma break_app_pass p s t :
  Str.any p s = false ->
  Str.break p (s +:+ t) = (s +:+ fst (Str.break p t), snd (Str.break p t)).
Proof.
  intros Hs. induction s as [|a r IH]; rewrite ?app_cons, ?app_nil.
  - now destruct (Str.break p t).
  - cbn [Str.any] in Hs. apply orb_false_iff in Hs as [Ha Hr].
    cbn [Str.break]. rewrite Ha, (IH Hr). reflexivity.
Qed.

Lemma cut_app_pass c s t :
  Str.has_char c s = false ->
  cut c (s +:+ t) = (s +:+ fst (cut c t), snd (cut c t)).
Proof.
  intros Hs. unfold cut, Str.split1. rewrite (break_app_pass _ _ t Hs).
  destruct (Str.break (Ascii.eqb c) t) as [x y]. cbn [fst snd].
  now destruct y.
Qed.

Lemma rstrip_none p s : Str.any p s = false -> Str.rstrip p s = s.
Proof.
  induction s as [|c r IH]; cbn [Str.any Str.rstrip]; [reflexivity|].
  intros [Hc Hr]%orb_false_iff. rewrite (IH Hr), Hc. now destruct r.
Qed.

Lemma take_all s : Str.take (String.length s) s = s.
Proof. induction s as [|c r IH]; cbn [Str.take String.length]; [reflexivity|]. now rewrite IH. Qed.

Lemma item_id_inv id :
  is_item_id id = true -> String.length id = 11%nat /\ Str.all Chr.is_idchar id = true.
Proof.
  unfold is_item_id. intros [L A]%andb_true_iff. split; [|exact A].
  now apply Nat.eqb_eq.
Qed.

Lemma item_id_nonempty id : is_item_id id = true -> String.eqb id "" = false.
Proof. intros [L _]%item_id_inv. now destruct id. Qed.

Lemma split_scheme_https rest : split_scheme ("https:" +:+ rest) = ("https", rest).
Proof. reflexivity. Qed.

Lemma split_netloc_host host rest :
  Str.all is_hostchar host = true ->
  split_netloc ("//" +:+ host +:+ "/" +:+ rest) = (host, "/" +:+ rest).
Proof.
  intros Hh. unfold split_netloc. rewrite !app_cons, app_nil.
  cbn [Str.startswith Str.drop]. change (Ascii.eqb "/" "/") with true. cbn [andb].
  apply break_app_found; [|reflexivity].
  exact (all_no_class _ _ _ hostchar_not_end Hh).
Qed.

Lemma sanitize_https s :
  Str.filter (fun c => negb (is_unsafe c)) (Str.lstrip is_c0_or_space ("https:" +:+ s))
  = "https:" +:+ Str.filter is_safe s.
Proof.
  rewrite !app_cons, app_nil. cbn [Str.lstrip].
  change (is_c0_or_space "h") with false. cbv iota. reflexivity.
Qed.

Section UrlFacts.
Context `{UrlLib}.

Lemma brackets_ok_host host :
  Str.all is_hostchar host = true -> netloc_brackets_ok host = true.
Proof.
  intros Hh. unfold netloc_brackets_ok.
  rewrite (all_no_char _ "[" _ hostchar_not_open Hh).
  now rewrite (all_no_char _ "]" _ hostchar_not_close Hh).
Qed.

(** The parse of an [https] URL with a host of letters, digits, dots,
    hyphens and underscores, a path of identifier characters and slashes,
    and a query: the query loses the characters that [urlsplit] removes
    and is cut at its first hash. *)
Lemma urlparse_https host pth q :
  Str.all is_hostchar host = true -> Str.all is_pathchar pth = true ->
  urlparse ("https://" +:+ host +:+ "/" +:+ pth +:+ "?" +:+ q)
  = Some {| scheme := "https"; netloc := host; path := "/" +:+ pth;
            params := "";
            query := fst (cut "#" (Str.filter is_safe q));
            fragment := snd (cut "#" (Str.filter is_safe q)) |}.
Proof.
  intros Hh Hp. unfold urlparse.
  change ("https://" +:+ host +:+ "/" +:+ pth +:+ "?" +:+ q)
    with ("https:" +:+ "//" +:+ host +:+ "/" +:+ pth +:+ "?" +:+ q).
  rewrite sanitize_https, !filter_app.
  rewrite (filter_all_id _ host (all_impl _ _ _ hostchar_safe Hh)).
  rewrite (filter_all_id _ pth (all_impl _ _ _ pathchar_safe Hp)).
  change (Str.filter is_safe "//") with "//".
  change (Str.filter is_safe "/") with "/".
  change (Str.filter is_safe "?") with "?".
  set (q' := Str.filter is_safe q).
  rewrite split_scheme_https, (split_netloc_host _ _ Hh), (brackets_ok_host _ Hh).
  cbn [negb].
  assert (Hc : cut "#" ("/" +:+ pth +:+ "?" +:+ q')
               = ("/" +:+ pth +:+ "?" +:+ fst (cut "#" q'), snd (cut "#" q'))).
  { rewrite <- (app_assoc' pth "?" q'), <- (app_assoc' "/" (pth +:+ "?") q').
    rewrite cut_app_pass.
    - now rewrite !app_assoc'.
    - unfold Str.has_char. rewrite !any_app. cbn [Str.any].
      fold (Str.has_char "#" pth).
      now rewrite (all_no_char _ "#" _ pathchar_not_hash Hp). }
  rewrite Hc.
  assert (Hd : forall r, cut "?" ("/" +:+ pth +:+ "?" +:+ r) = ("/" +:+ pth, r)).
  { intros r. rewrite <- (app_assoc' "/" pth). apply cut_found.
    unfold Str.has_char. rewrite any_app. cbn [Str.any].
    fold (Str.has_char "?" pth).
    now rewrite (all_no_char _ "?" _ pathchar_not_qmark Hp). }
  rewrite Hd.
  assert (Hs : Str.has_char ";" ("/" +:+ pth) = false).
  { unfold Str.has_char. rewrite any_app. cbn [Str.any].
    fold (Str.has_char ";" pth).
    now rewrite (all_no_char _ ";" _ pathchar_not_semi Hp). }
  rewrite Hs, andb_false_r. reflexivity.
Qed.

Lemma urlparse_plain host pth :
  Str.all is_hostchar host = true -> Str.all is_pathchar pth = true ->
  urlparse ("https://" +:+ host +:+ "/" +:+ pth)
  = Some {| scheme := "https"; netloc := host; path := "/" +:+ pth;
            params := ""; query := ""; fragment := "" |}.
Proof.
  intros Hh Hp. unfold urlparse.
  change ("https://" +:+ host +:+ "/" +:+ pth)
    with ("https:" +:+ "//" +:+ host +:+ "/" +:+ pth).
  rewrite sanitize_https, !filter_app.
  rewrite (filter_all_id _ host (all_impl _ _ _ hostchar_safe Hh)).
  rewrite (filter_all_id _ pth (all_impl _ _ _ pathchar_safe Hp)).
  change (Str.filter is_safe "//") with "//".
  change (Str.filter is_safe "/") with "/".
  rewrite split_scheme_https, (split_netloc_host _ _ Hh), (brackets_ok_host _ Hh).
  cbn [negb].
  assert (Hc : forall c, (forall a, is_pathchar a = true -> negb (Ascii.eqb c a) = true) ->
                 Str.has_char c ("/" +:+ pth) = false).
  { intros c Hcl. apply (all_no_char is_pathchar); [exact Hcl|].
    rewrite all_app. now rewrite Hp. }
  rewrite (cut_none "#" _ (Hc _ pathchar_not_hash)).
  rewrite (cut_none "?" _ (Hc _ pathchar_not_qmark)).
  rewrite (Hc _ pathchar_not_semi), andb_false_r. reflexivity.
Qed.

Lemma startswith_has p s c :
  Str.startswith p s = true -> Str.has_char c p = true -> Str.has_char c s = true.
Proof.
  unfold Str.has_char. revert s. induction p as [|a p IH]; intros s; [discriminate 2|].
  destruct s as [|b s]; cbn [Str.startswith Str.any]; [discriminate|].
  intros [Hab Hp]%andb_true_iff. apply Ascii.eqb_eq in Hab as <-.
  intros [-> | Hc]%orb_true_iff; [reflexivity|].
  rewrite (IH s Hp Hc). apply orb_true_r.
Qed.

Lemma search_shorts_no_slash s : Str.has_char "/" s = false -> search_shorts s = None.
Proof.
  unfold Str.has_char. induction s as [|c r IH]; [reflexivity|].
  cbn [Str.any search_shorts]. intros [Hc Hr]%orb_false_iff.
  unfold shorts_at. cbn [Str.startswith]. rewrite Hc. cbn [andb]. auto.
Qed.

Lemma search_shorts_segment id :
  Str.all Chr.is_idchar id = true -> search_shorts ("/" +:+ id) = None.
Proof.
  intros Hid. pose proof (all_no_char _ "/" _ idchar_not_slash Hid) as Hs.
  rewrite app_cons, app_nil. cbn [search_shorts]. unfold shorts_at.
  change (Str.startswith "/shorts/" (String "/" id)) with (Str.startswith "shorts/" id).
  destruct (Str.startswith "shorts/" id) eqn:E.
  - rewrite (startswith_has _ _ "/" E eq_refl) in Hs. discriminate.
  - now apply search_shorts_no_slash.
Qed.

Lemma search_shorts_hit id :
  is_item_id id = true -> search_shorts ("/shorts/" +:+ id) = Some id.
Proof.
  intros [L A]%item_id_inv.
  assert (T : Str.take 11 id = id) by (rewrite <- L; apply take_all).
  assert (S : shorts_at (String "/" ("shorts/" +:+ id)) = Some id).
  { unfold shorts_at.
    change (Str.startswith "/shorts/" (String "/" ("shorts/" +:+ id))) with true.
    cbv iota. change (Str.drop 8 (String "/" ("shorts/" +:+ id))) with id.
    now rewrite T, L, A. }
  change ("/shorts/" +:+ id) with (String "/" ("shorts/" +:+ id)).
  cbn [search_shorts]. now rewrite S.
Qed.

(** The query of a watch link: the first value of [v] is the identifier. *)
Lemma parse_qs_v id rest :
  is_item_id id = true -> (rest = "" \/ exists e, rest = "&" +:+ e) ->
  exists l, parse_qs ("v=" +:+ id +:+ rest) "v" = id :: l.
Proof.
  intros Hid Hrest. pose proof (item_id_inv _ Hid) as [L A].
  assert (Hf : parse_field ("v=" +:+ id) = Some ("v", id)).
  { unfold parse_field. rewrite !app_cons, app_nil.
    change (Str.split1 "=" (String "v" (String "=" id))) with ("v", Some id).
    cbv iota beta. rewrite (item_id_nonempty _ Hid).
    change (Str.replace "+" " " "v") with "v".
    rewrite (unquote_plain "v" eq_refl).
    unfold Str.replace. rewrite replace_from_no_match.
    - now rewrite (unquote_plain id (all_no_char _ "%" _ idchar_not_pct A)).
    - exact (all_no_char _ "+" _ idchar_not_plus A). }
  assert (Hs : exists tl, Str.split "&" ("v=" +:+ id +:+ rest) = ("v=" +:+ id) :: tl).
  { assert (Hn : Str.has_char "&" ("v=" +:+ id) = false).
    { unfold Str.has_char. rewrite any_app. cbn [Str.any].
      fold (Str.has_char "&" id). now rewrite (all_no_char _ "&" _ idchar_not_amp A). }
    destruct Hrest as [-> | [e ->]].
    - exists []. rewrite app_nil_r. now apply split_none.
    - exists (Str.split "&" e). rewrite <- (app_assoc' "v=" id).
      change ("&" +:+ e) with (String "&" e). now apply split_app_found. }
  destruct Hs as [tl Hs]. unfold parse_qs, parse_qsl. rewrite Hs.
  cbn [omap list_omap]. rewrite Hf. cbn [List.filter fst].
  change (String.eqb "v" "v") with true. cbv iota. cbn [fmap list_fmap snd]. eauto.
Qed.

Lemma clean_watch id q :
  is_item_id id = true ->
  (exists e, fst (cut "#" (Str.filter is_safe q)) = "v=" +:+ id +:+ "&" +:+ e)
  \/ fst (cut "#" (Str.filter is_safe q)) = "v=" +:+ id ->
  clean_video_url ("https://www.youtube.com/watch?" +:+ q)
  = "https://www.youtube.com/watch?v=" +:+ id.
Proof.
  intros Hid Hq. unfold clean_video_url.
  replace (String.eqb ("https://www.youtube.com/watch?" +:+ q) "") with false by reflexivity.
  change ("https://www.youtube.com/watch?" +:+ q)
    with ("https://" +:+ "www.youtube.com" +:+ "/" +:+ "watch" +:+ "?" +:+ q).
  rewrite (urlparse_https "www.youtube.com" "watch" q eq_refl eq_refl).
  cbn [path netloc query].
  change (search_shorts ("/" +:+ "watch")) with (@None string).
  change (Str.contains "youtu.be" "www.youtube.com") with false.
  rewrite andb_false_r. cbn [andb].
  change (Str.contains "watch" ("/" +:+ "watch")) with true. cbn [andb].
  set (qq := fst (cut "#" (Str.filter is_safe q))) in *.
  assert (Hne : String.eqb qq "" = false).
  { destruct Hq as [[e ->] | ->]; reflexivity. }
  rewrite Hne. cbn [negb].
  destruct (parse_qs_v id (Str.drop (2 + String.length id) qq) Hid) as [l Hl].
  - destruct Hq as [[e ->] | ->].
    + right. exists e. clear. rewrite !app_cons, app_nil. cbn [Str.drop Nat.add].
      induction id as [|c r IH]; [reflexivity|]. rewrite app_cons. exact IH.
    + left. clear. rewrite !app_cons, app_nil. cbn [Str.drop Nat.add].
      induction id as [|c r IH]; [reflexivity|]. exact IH.
  - assert (E : "v=" +:+ id +:+ Str.drop (2 + String.length id) qq = qq).
    { destruct Hq as [[e ->] | ->]; rewrite !app_cons, app_nil; cbn [Str.drop Nat.add];
        do 2 f_equal; clear; induction id as [|c r IH]; rewrite ?app_cons, ?app_nil;
        cbn [Str.drop String.length]; try reflexivity; now f_equal. }
    rewrite E in Hl. now rewrite Hl.
Qed.

Lemma first_segment_id id :
  Str.all Chr.is_idchar id = true -> first_segment ("/" +:+ id) = id.
Proof.
  intros A. pose proof (all_no_char _ "/" _ idchar_not_slash A) as Hs.
  unfold first_segment, Str.strip_char. rewrite app_cons, app_nil.
  cbn [Str.lstrip]. change (Ascii.eqb "/" "/") with true. cbv iota.
  assert (Hl : Str.lstrip (Ascii.eqb "/") id = id).
  { destruct id as [|c r]; [reflexivity|]. cbn [Str.lstrip].
    unfold Str.has_char in Hs. cbn [Str.any] in Hs.
    apply orb_false_iff in Hs as [-> _]. reflexivity. }
  rewrite Hl, (rstrip_none _ _ Hs), (break_none _ _ Hs). reflexivity.
Qed.

Lemma clean_short_link id :
  is_item_id id = true ->
  clean_video_url (short_link id) = "https://www.youtube.com/watch?v=" +:+ id.
Proof.
  intros Hid. pose proof (item_id_inv _ Hid) as [L A].
  unfold clean_video_url, short_link.
  replace (String.eqb ("https://youtu.be/" +:+ id) "") with false by reflexivity.
  change ("https://youtu.be/" +:+ id) with ("https://" +:+ "youtu.be" +:+ "/" +:+ id).
  rewrite (urlparse_plain "youtu.be" id eq_refl (all_impl _ _ _ idchar_pathchar A)).
  cbn [path netloc query].
  rewrite (search_shorts_segment _ A), (first_segment_id _ A), (item_id_nonempty _ Hid).
  reflexivity.
Qed.

Lemma clean_shorts_path id :
  is_item_id id = true -> clean_video_url (shorts_path id) = shorts_path id.
Proof.
  intros Hid. pose proof (item_id_inv _ Hid) as [L A].
  unfold clean_video_url, shorts_path.
  replace (String.eqb ("https://www.youtube.com/shorts/" +:+ id) "") with false by reflexivity.
  change ("https://www.youtube.com/shorts/" +:+ id)
    with ("https://" +:+ "www.youtube.com" +:+ "/" +:+ ("shorts/" +:+ id)).
  rewrite (urlparse_plain "www.youtube.com" ("shorts/" +:+ id) eq_refl).
  2:{ rewrite all_app. now rewrite (all_impl _ _ _ idchar_pathchar A). }
  cbn [path].
  change ("/" +:+ "shorts/" +:+ id) with ("/shorts/" +:+ id).
  now rewrite (search_shorts_hit _ Hid).
Qed.

Lemma clean_watch_link id extra :
  is_item_id id = true ->
  clean_video_url (watch_link id extra) = "https://www.youtube.com/watch?v=" +:+ id.
Proof.
  intros Hid. pose proof (item_id_inv _ Hid) as [L A].
  unfold watch_link.
  change ("https://www.youtube.com/watch?v=" +:+ id +:+ "&" +:+ extra)
    with ("https://www.youtube.com/watch?" +:+ ("v=" +:+ id +:+ "&" +:+ extra)).
  apply clean_watch; [exact Hid|]. left.
  rewrite !filter_app, (filter_all_id _ id (all_impl _ _ _ idchar_safe A)).
  change (Str.filter is_safe "v=") with "v=". change (Str.filter is_safe "&") with "&".
  exists (fst (cut "#" (Str.filter is_safe extra))).
  rewrite <- (app_assoc' id "&"), <- (app_assoc' "v=" (id +:+ "&")).
  rewrite cut_app_pass.
  - cbn [fst]. now rewrite !app_assoc'.
  - unfold Str.has_char. rewrite !any_app. cbn [Str.any].
    fold (Str.has_char "#" id). now rewrite (all_no_char _ "#" _ idchar_not_hash A).
Qed.

Lemma clean_watch_canonical id :
  is_item_id id = true ->
  clean_video_url ("https://www.youtube.com/watch?v=" +:+ id)
  = "https://www.youtube.com/watch?v=" +:+ id.
Proof.
  intros Hid. pose proof (item_id_inv _ Hid) as [L A].
  change ("https://www.youtube.com/watch?v=" +:+ id)
    with ("https://www.youtube.com/watch?" +:+ ("v=" +:+ id)).
  apply clean_watch; [exact Hid|]. right.
  rewrite !filter_app, (filter_all_id _ id (all_impl _ _ _ idchar_safe A)).
  change (Str.filter is_safe "v=") with "v=".
  rewrite cut_none; [reflexivity|].
  unfold Str.has_char. rewrite !any_app. cbn [Str.any].
  fold (Str.has_char "#" id). now rewrite (all_no_char _ "#" _ idchar_not_hash A).
Qed.

Lemma watch_query_v id qq :
  is_item_id id = true ->
  (exists e, qq = "v=" +:+ id +:+ "&" +:+ e) \/ qq = "v=" +:+ id ->
  String.eqb qq "" = false /\ exists l, parse_qs qq "v" = id :: l.
Proof.
  intros Hid Hq. split.
  - destruct Hq as [[e ->] | ->]; reflexivity.
  - destruct Hq as [[e ->] | ->].
    + apply parse_qs_v; [exact Hid|]. right. now exists e.
    + destruct (parse_qs_v id "" Hid (or_introl eq_refl)) as [l Hl].
      rewrite app_nil_r in Hl. now exists l.
Qed.

Lemma extract_watch id q :
  is_item_id id = true ->
  (exists e, fst (cut "#" (Str.filter is_safe q)) = "v=" +:+ id +:+ "&" +:+ e)
  \/ fst (cut "#" (Str.filter is_safe q)) = "v=" +:+ id ->
  extract_video_id ("https://www.youtube.com/watch?" +:+ q) = Some id.
Proof.
  intros Hid Hq. unfold extract_video_id.
  change ("https://www.youtube.com/watch?" +:+ q)
    with ("https://" +:+ "www.youtube.com" +:+ "/" +:+ "watch" +:+ "?" +:+ q).
  rewrite (urlparse_https "www.youtube.com" "watch" q eq_refl eq_refl).
  cbn [path netloc query].
  change (Str.contains "youtu.be" "www.youtube.com") with false.
  rewrite andb_false_r. cbv iota.
  change (Str.contains "/watch" ("/" +:+ "watch")) with true. cbn [andb].
  destruct (watch_query_v id _ Hid Hq) as [Hne [l Hl]].
  rewrite Hne. cbn [negb]. now rewrite Hl.
Qed.

Lemma watch_link_query id extra :
  Str.all Chr.is_idchar id = true ->
  exists e, fst (cut "#" (Str.filter is_safe ("v=" +:+ id +:+ "&" +:+ extra)))
            = "v=" +:+ id +:+ "&" +:+ e.
Proof.
  intros A.
  rewrite !filter_app, (filter_all_id _ id (all_impl _ _ _ idchar_safe A)).
  change (Str.filter is_safe "v=") with "v=". change (Str.filter is_safe "&") with "&".
  exists (fst (cut "#" (Str.filter is_safe extra))).
  rewrite <- (app_assoc' id "&"), <- (app_assoc' "v=" (id +:+ "&")).
  rewrite cut_app_pass.
  - cbn [fst]. now rewrite !app_assoc'.
  - unfold Str.has_char. rewrite !any_app. cbn [Str.any].
    fold (Str.has_char "#" id). now rewrite (all_no_char _ "#" _ idchar_not_hash A).
Qed.

Lemma canonical_query id :
  Str.all Chr.is_idchar id = true ->
  fst (cut "#" (Str.filter is_safe ("v=" +:+ id))) = "v=" +:+ id.
Proof.
  intros A.
  rewrite !filter_app, (filter_all_id _ id (all_impl _ _ _ idchar_safe A)).
  change (Str.filter is_safe "v=") with "v=".
  rewrite cut_none; [reflexivity|].
  unfold Str.has_char. rewrite !any_app. cbn [Str.any].
  fold (Str.has_char "#" id). now rewrite (all_no_char _ "#" _ idchar_not_hash A).
Qed.

Lemma extract_watch_link id extra :
  is_item_id id = true -> extract_video_id (watch_link id extra) = Some id.
Proof.
  intros Hid. pose proof (item_id_inv _ Hid) as [L A]. unfold watch_link.
  change ("https://www.youtube.com/watch?v=" +:+ id +:+ "&" +:+ extra)
    with ("https://www.youtube.com/watch?" +:+ ("v=" +:+ id +:+ "&" +:+ extra)).
  apply extract_watch; [exact Hid|]. left. now apply watch_link_query.
Qed.

Lemma extract_watch_canonical id :
  is_item_id id = true ->
  extract_video_id ("https://www.youtube.com/watch?v=" +:+ id) = Some id.
Proof.
  intros Hid. pose proof (item_id_inv _ Hid) as [L A].
  change ("https://www.youtube.com/watch?v=" +:+ id)
    with ("https://www.youtube.com/watch?" +:+ ("v=" +:+ id)).
  apply extract_watch; [exact Hid|]. right. now apply canonical_query.
Qed.

Lemma extract_short_link id :
  is_item_id id = true -> extract_video_id (short_link id) = Some id.
Proof.
  intros Hid. pose proof (item_id_inv _ Hid) as [L A].
  unfold extract_video_id, short_link.
  change ("https://youtu.be/" +:+ id) with ("https://" +:+ "youtu.be" +:+ "/" +:+ id).
  rewrite (urlparse_plain "youtu.be" id eq_refl (all_impl _ _ _ idchar_pathchar A)).
  cbn [path netloc query].
  change (negb (String.eqb "youtu.be" "") && Str.contains "youtu.be" "youtu.be")%bool
    with true.
  cbv iota. now rewrite (first_segment_id _ A).
Qed.

Lemma extract_shorts_path id :
  is_item_id id = true -> extract_video_id (shorts_path id) = Some id.
Proof.
  intros Hid. pose proof (item_id_inv _ Hid) as [L A].
  unfold extract_video_id, shorts_path.
  change ("https://www.youtube.com/shorts/" +:+ id)
    with ("https://" +:+ "www.youtube.com" +:+ "/" +:+ ("shorts/" +:+ id)).
  rewrite (urlparse_plain "www.youtube.com" ("shorts/" +:+ id) eq_refl).
  2:{ rewrite all_app. now rewrite (all_impl _ _ _ idchar_pathchar A). }
  cbn [path netloc query].
  change (Str.contains "youtu.be" "www.youtube.com") with false.
  change (negb (String.eqb "" "")) with false.
  rewrite !andb_false_r. cbv iota.
  change ("/" +:+ "shorts/" +:+ id) with ("/shorts/" +:+ id).
  exact (search_shorts_hit _ Hid).
Qed.

End UrlFacts.

(** ** Canonical URLs and identifiers *)

(** X1.  [clean_video_url] sends a watch link with any further query
    parameters and a short link for an eleven-character identifier to
    [https://www.youtube.com/watch?v=ID], and returns a shorts path as it
    is. *)
Theorem clean_video_url_forms `{UrlLib} (id extra : string) :
  is_item_id id = true ->
  clean_video_url (watch_link id extra) = "https://www.youtube.com/watch?v=" +:+ id
  /\ clean_video_url (short_link id) = "https://www.youtube.com/watch?v=" +:+ id
  /\ clean_video_url (shorts_path id) = shorts_path id.
Proof.
  intros Hid. split; [|split].
  - now apply clean_watch_link.
  - now apply clean_short_link.
  - now apply clean_shorts_path.
Qed.

Lemma clean_video_url_forms_witness :
  is_item_id "dQw4w9WgXcQ" = true
  /\ @clean_video_url ascii_urls (watch_link "dQw4w9WgXcQ" "t=42s&list=PL1#top")
     = "https://www.youtube.com/watch?v=dQw4w9WgXcQ".
Proof.
  split; [reflexivity|].
  apply (@clean_video_url_forms ascii_urls "dQw4w9WgXcQ" "t=42s&list=PL1#top").
  reflexivity.
Defined.

(** C8, for identifiers of the pattern [[A-Za-z0-9_-]{11}].  On a watch
    link with any further query parameters, a short link and a shorts path
    for such an identifier, applying [clean_video_url] twice gives what
    applying it once gives. *)
Theorem clean_video_url_twice `{UrlLib} (id extra : string) :
  is_item_id id = true ->
  Forall (fun u => clean_video_url (clean_video_url u) = clean_video_url u)
    [watch_link id extra; short_link id; shorts_path id].
Proof.
  intros Hid. repeat constructor.
  - rewrite (clean_watch_link _ extra Hid). now apply clean_watch_canonical.
  - rewrite (clean_short_link _ Hid). now apply clean_watch_canonical.
  - rewrite (clean_shorts_path _ Hid). now apply clean_shorts_path.
Qed.

Lemma clean_video_url_twice_witness :
  is_item_id "dQw4w9WgXcQ" = true
  /\ Forall (fun u => @clean_video_url ascii_urls (@clean_video_url ascii_urls u)
                     = @clean_video_url ascii_urls u)
       [watch_link "dQw4w9WgXcQ" "feature=share"; short_link "dQw4w9WgXcQ";
        shorts_path "dQw4w9WgXcQ"].
Proof.
  split; [reflexivity|].
  apply (@clean_video_url_twice ascii_urls "dQw4w9WgXcQ" "feature=share").
  reflexivity.
Defined.

(** C8, counterexample to idempotence on every watch link: the value of
    [v] is percent-decoded and written back as it is, so a second
    application decodes it once more. *)
Lemma clean_video_url_percent :
  @clean_video_url ascii_urls "https://www.youtube.com/watch?v=%2541abcdefgh&t=1"
  = "https://www.youtube.com/watch?v=%41abcdefgh"
  /\ @clean_video_url ascii_urls "https://www.youtube.com/watch?v=%41abcdefgh"
     = "https://www.youtube.com/watch?v=Aabcdefgh".
Proof. split; vm_compute; reflexivity. Qed.

(** C9, for identifiers of the pattern [[A-Za-z0-9_-]{11}].
    [extract_video_id] returns the identifier of each of the three URL
    forms, and returns the same identifier after [clean_video_url]: the
    three forms of one item and their canonical forms share one key. *)
Theorem extract_video_id_forms `{UrlLib} (id extra : string) :
  is_item_id id = true ->
  Forall (fun u => extract_video_id u = Some id
                   /\ extract_video_id (clean_video_url u) = Some id)
    [watch_link id extra; short_link id; shorts_path id].
Proof.
  intros Hid. repeat constructor.
  - now apply extract_watch_link.
  - rewrite (clean_watch_link _ extra Hid). now apply extract_watch_canonical.
  - now apply extract_short_link.
  - rewrite (clean_short_link _ Hid). now apply extract_watch_canonical.
  - now apply extract_shorts_path.
  - rewrite (clean_shorts_path _ Hid). now apply extract_shorts_path.
Qed.

Lemma extract_video_id_forms_witness :
  is_item_id "dQw4w9WgXcQ" = true
  /\ Forall (fun u => @extract_video_id ascii_urls u = Some "dQw4w9WgXcQ"
                     /\ @extract_video_id ascii_urls (@clean_video_url ascii_urls u)
                        = Some "dQw4w9WgXcQ")
       [watch_link "dQw4w9WgXcQ" "t=1"; short_link "dQw4w9WgXcQ";
        shorts_path "dQw4w9WgXcQ"].
Proof.
  split; [reflexivity|].
  apply (@extract_video_id_forms ascii_urls "dQw4w9WgXcQ" "t=1").
  reflexivity.
Defined.

(** C9, counterexample to "the extracted identifier is an 11-character
    token": a watch link gives the whole value of [v] and a short link its
    whole first path segment, of any length. *)
Lemma extract_video_id_any_length :
  @extract_video_id ascii_urls "https://www.youtube.com/watch?v=abc" = Some "abc"
  /\ @extract_video_id ascii_urls "https://youtu.be/" = Some ""
  /\ @extract_video_id ascii_urls "https://youtu.be/a-much-longer-segment/x"
     = Some "a-much-longer-segment".
Proof. repeat split; vm_compute; reflexivity. Qed.

(** ** Decimal rendering *)

Example seconds_to_hms_run :
  seconds_to_hms (Some 3723) = Some "01:02:03"
  /\ seconds_to_hms (Some 605) = Some "10:05"
  /\ seconds_to_hms (Some 0) = Some "00:00"
  /\ seconds_to_hms (Some 360000) = Some "100:00:00".
Proof. repeat split; vm_compute; reflexivity. Qed.

Lemma digit_char_spec d :
  0 <= d < 10 ->
  Chr.is_digit (digit_char d) = true /\ Chr.digit_val (digit_char d) = d.
Proof.
  intros Hd.
  assert (E : d = 0 \/ d = 1 \/ d = 2 \/ d = 3 \/ d = 4 \/ d = 5 \/ d = 6
              \/ d = 7 \/ d = 8 \/ d = 9) by lia.
  repeat (destruct E as [-> | E]; [split; reflexivity|]). subst d. split; reflexivity.
Qed.

Lemma dec_digits_all fuel n acc :
  0 <= n -> Str.all Chr.is_digit acc = true ->
  Str.all Chr.is_digit (dec_digits fuel n acc) = true.
Proof.
  revert n acc. induction fuel as [|k IH]; intros n acc Hn Ha; cbn [dec_digits].
  - cbn [Str.all]. rewrite Ha.
    now rewrite (proj1 (digit_char_spec (n mod 10) (Z.mod_pos_bound n 10 eq_refl))).
  - assert (Hd : Str.all Chr.is_digit (String (digit_char (n mod 10)) acc) = true).
    { cbn [Str.all]. rewrite Ha.
      now rewrite (proj1 (digit_char_spec (n mod 10) (Z.mod_pos_bound n 10 eq_refl))). }
    destruct (n <? 10); [exact Hd|].
    apply IH; [|exact Hd]. apply Z.div_pos; lia.
Qed.

(** Reading back the digits of [n]. *)
Lemma dec_value_digits fuel n acc :
  0 <= n < 10 ^ (Z.of_nat fuel + 1) ->
  dec_value 0 (dec_digits fuel n acc) = dec_value n acc.
Proof.
  revert n acc. induction fuel as [|k IH]; intros n acc Hn; cbn [dec_digits].
  - change (Z.of_nat 0 + 1) with 1 in Hn. change (10 ^ 1) with 10 in Hn.
    cbn [dec_value].
    rewrite (proj2 (digit_char_spec (n mod 10) (Z.mod_pos_bound n 10 eq_refl))).
    rewrite Z.mod_small by lia. f_equal.
  - destruct (Z.ltb_spec n 10) as [Hlt | Hge].
    + cbn [dec_value].
      rewrite (proj2 (digit_char_spec (n mod 10) (Z.mod_pos_bound n 10 eq_refl))).
      rewrite Z.mod_small by lia. f_equal.
    + rewrite IH.
      * cbn [dec_value].
        rewrite (proj2 (digit_char_spec (n mod 10) (Z.mod_pos_bound n 10 eq_refl))).
        f_equal. pose proof (Z.div_mod n 10). lia.
      * split; [apply Z.div_pos; lia|].
        apply Z.div_lt_upper_bound; [lia|].
        replace (Z.of_nat (S k) + 1) with (Z.succ (Z.of_nat k + 1)) in Hn by lia.
        rewrite Z.pow_succ_r in Hn by lia. lia.
Qed.

Lemma dec_digits_length fuel n acc (k : nat) :
  (1 <= k)%nat -> 0 <= n < 10 ^ Z.of_nat k ->
  (String.length (dec_digits fuel n acc) <= k + String.length acc)%nat.
Proof.
  revert n acc k. induction fuel as [|f IH]; intros n acc k Hk Hn; cbn [dec_digits].
  - cbn [String.length]. lia.
  - destruct (Z.ltb_spec n 10) as [Hlt | Hge]; [cbn [String.length]; lia|].
    destruct k as [|[|k]]; [lia| change (10 ^ Z.of_nat 1) with 10 in Hn; lia |].
    etransitivity; [apply (IH _ _ (S k)); [lia|]|cbn [String.length]; lia].
    split; [apply Z.div_pos; lia|].
    apply Z.div_lt_upper_bound; [lia|].
    replace (Z.of_nat (S (S k))) with (Z.succ (Z.of_nat (S k))) in Hn by lia.
    rewrite Z.pow_succ_r in Hn by lia. lia.
Qed.

Lemma log2_fuel n : 0 <= n -> n < 10 ^ (Z.of_nat (Z.to_nat (Z.log2 n)) + 1).
Proof.
  intros Hn. rewrite Z2Nat.id by apply Z.log2_nonneg.
  destruct (Z.eq_dec n 0) as [-> | Hz]; [reflexivity|].
  pose proof (Z.log2_spec n ltac:(lia)) as [_ Hu].
  eapply Z.lt_le_trans; [exact Hu|].
  replace (Z.succ (Z.log2 n)) with (Z.log2 n + 1) by lia.
  apply Z.pow_le_mono_l. lia.
Qed.

Lemma dec_of_nat_value n : 0 <= n -> dec_value 0 (dec_of_nat n) = n.
Proof.
  intros Hn. unfold dec_of_nat. rewrite dec_value_digits; [reflexivity|].
  split; [exact Hn|now apply log2_fuel].
Qed.

Lemma dec_of_nat_digits n : 0 <= n -> Str.all Chr.is_digit (dec_of_nat n) = true.
Proof. intros Hn. now apply dec_digits_all. Qed.

Lemma dec_of_nat_length n (k : nat) :
  (1 <= k)%nat -> 0 <= n < 10 ^ Z.of_nat k -> (String.length (dec_of_nat n) <= k)%nat.
Proof.
  intros Hk Hn. pose proof (dec_digits_length (Z.to_nat (Z.log2 n)) n "" k Hk Hn) as L.
  cbn [String.length] in L. unfold dec_of_nat. lia.
Qed.

Lemma dec_digits_nonempty f n acc : dec_digits f n acc <> "".
Proof.
  revert n acc. induction f as [|f IH]; intros n acc; cbn [dec_digits]; [discriminate|].
  destruct (n <? 10); [discriminate|]. apply IH.
Qed.

(** ** [int] of a string of digits *)

Lemma digit_not_space c : Chr.is_digit c = true -> negb (Chr.int_space c) = true.
Proof. revert c. by_chars. Qed.

Lemma digit_not_colon c : Chr.is_digit c = true -> negb (Ascii.eqb ":" c) = true.
Proof. revert c. by_chars. Qed.

Lemma digit_no_sign c (r : string) :
  Chr.is_digit c = true ->
  match String c r with
  | String "-" r' => (true, r')
  | String "+" r' => (false, r')
  | _ => (false, String c r)
  end = (false, String c r).
Proof. destruct c as [[] [] [] [] [] [] [] []]; (discriminate || reflexivity). Qed.

Lemma int_digits_value s acc :
  Str.all Chr.is_digit s = true -> int_digits acc true s = Some (dec_value acc s).
Proof.
  revert acc. induction s as [|c r IH]; intros acc; cbn [Str.all int_digits dec_value];
    [reflexivity|].
  intros [Hc Hr]%andb_true_iff. rewrite Hc. now apply IH.
Qed.

Lemma strip_digits s :
  Str.all Chr.is_digit s = true ->
  Str.rstrip Chr.int_space (Str.lstrip Chr.int_space s) = s.
Proof.
  intros A. pose proof (all_no_class _ _ _ digit_not_space A) as N.
  assert (L : Str.lstrip Chr.int_space s = s).
  { destruct s as [|c r]; [reflexivity|]. cbn [Str.lstrip Str.any] in *.
    apply orb_false_iff in N as [-> _]. reflexivity. }
  rewrite L. now apply rstrip_none.
Qed.

(** [int] reads a non-empty string of at most 4300 digits as its decimal
    value. *)
Lemma py_int_digits s :
  Str.all Chr.is_digit s = true -> s <> "" -> (String.length s <= 4300)%nat ->
  py_int s = Some (dec_value 0 s).
Proof.
  intros A Hne Hlen. unfold py_int. rewrite (strip_digits _ A).
  destruct s as [|c r]; [congruence|].
  pose proof A as A'. cbn [Str.all] in A'. apply andb_true_iff in A' as [Hc Hr].
  rewrite (digit_no_sign c r Hc).
  rewrite (filter_all_id _ _ A).
  destruct (Nat.ltb_spec 4300 (String.length (String c r))) as [Hgt | _]; [lia|].
  cbn [int_digits]. rewrite Hc.
  rewrite (int_digits_value r _ Hr). reflexivity.
Qed.

Lemma py_int_dec_of_nat n :
  0 <= n < 10 ^ 4300 -> py_int (dec_of_nat n) = Some n.
Proof.
  intros Hn. rewrite py_int_digits.
  - now rewrite dec_of_nat_value.
  - now apply dec_of_nat_digits.
  - apply dec_digits_nonempty.
  - apply dec_of_nat_length; [lia|]. exact Hn.
Qed.

(** ** [seconds_to_hms] *)

Lemma digit_not_P c : Chr.is_digit c = true -> Ascii.eqb "P" c = false.
Proof. revert c. by_chars. Qed.

Lemma digits_head s r :
  Str.all Chr.is_digit s = true -> s <> "" ->
  String.eqb (s +:+ r) "" = false /\ Str.startswith "PT" (s +:+ r) = false.
Proof.
  intros A Hne. destruct s as [|c s]; [congruence|].
  cbn [Str.all] in A. apply andb_true_iff in A as [Hc _].
  rewrite app_cons. split; [reflexivity|].
  cbn [Str.startswith]. now rewrite (digit_not_P c Hc).
Qed.

(** A field written by [format_02d] is read back by [int]. *)
Lemma format_02d_read n :
  0 <= n < 10 ^ 4300 ->
  exists s, format_02d n = Some s /\ Str.all Chr.is_digit s = true
            /\ s <> "" /\ py_int s = Some n.
Proof.
  intros Hn. unfold format_02d, py_str_int.
  rewrite Z.abs_eq by apply Hn.
  pose proof (dec_of_nat_length n 4300 ltac:(lia) Hn) as L.
  pose proof (dec_of_nat_digits n (proj1 Hn)) as D.
  pose proof (dec_of_nat_value n (proj1 Hn)) as V.
  pose proof (dec_digits_nonempty (Z.to_nat (Z.log2 n)) n "") as N.
  fold (dec_of_nat n) in N.
  destruct (Nat.ltb_spec 4300 (String.length (dec_of_nat n))) as [G|_]; [lia|].
  destruct (Z.ltb_spec n 0) as [G|_]; [destruct Hn as [G0 _]; clear -G G0; lia|].
  cbn [mbind option_bind].
  destruct (Nat.ltb_spec (String.length (dec_of_nat n)) 2) as [Hs|Hs].
  - exists ("0" +:+ dec_of_nat n). split; [reflexivity|]. split; [|split].
    + now rewrite all_app, D.
    + discriminate.
    + rewrite py_int_digits.
      * rewrite app_cons, app_nil. cbn [dec_value]. now rewrite <- V at 2.
      * now rewrite all_app, D.
      * discriminate.
      * rewrite app_cons, app_nil. cbn [String.length]. lia.
  - exists (dec_of_nat n). split; [reflexivity|]. split; [exact D|]. split; [exact N|].
    rewrite py_int_digits; [now rewrite V|exact D|exact N|exact L].
Qed.

Lemma digits_no_colon s : Str.all Chr.is_digit s = true -> Str.has_char ":" s = false.
Proof. exact (all_no_char _ ":" s digit_not_colon). Qed.

Lemma small_field n : 0 <= n < 60 -> 0 <= n < 10 ^ 4300.
Proof.
  intros [H0 H1]. split; [exact H0|].
  eapply Z.lt_le_trans; [exact H1|].
  change 60 with (60 ^ 1). etransitivity; [|apply (Z.pow_le_mono_r 10 2 4300); lia].
  vm_compute. discriminate.
Qed.

(** X2.  What [seconds_to_hms] writes for a duration of [s >= 0] seconds,
    the duration fallback of [extract_video_metadata_hybrid] reads back as
    [s]. *)
Theorem seconds_to_hms_read_back (s : Z) :
  0 <= s < 10 ^ 4300 ->
  exists t, seconds_to_hms (Some s) = Some t
            /\ duration_from_dom None (Some t) = Some s.
Proof.
  intros Hs.
  assert (Hh : 0 <= s / 3600 < 10 ^ 4300).
  { split; [apply Z.div_pos; lia|].
    apply Z.div_lt_upper_bound; [lia|]. destruct Hs as [H0 H1].
    eapply Z.lt_le_trans; [exact H1|].
    rewrite <- (Z.mul_1_l (10 ^ 4300)) at 1.
    apply Z.mul_le_mono_nonneg_r; [apply Z.pow_nonneg|]; lia. }
  assert (Hm : 0 <= (s mod 3600) / 60 < 60).
  { pose proof (Z.mod_pos_bound s 3600 eq_refl).
    split; [apply Z.div_pos; lia|]. apply Z.div_lt_upper_bound; lia. }
  assert (Hc : 0 <= s mod 60 < 60) by (apply Z.mod_pos_bound; reflexivity).
  assert (E : s / 3600 * 3600 + (s mod 3600) / 60 * 60 + s mod 60 = s).
  { clear. Z.div_mod_to_equations. lia. }
  destruct (format_02d_read _ Hh) as (hh & Fh & Dh & Nh & Ih).
  destruct (format_02d_read _ (small_field _ Hm)) as (mm & Fm & Dm & Nm & Im).
  destruct (format_02d_read _ (small_field _ Hc)) as (ss & Fs & Ds & Ns & Is).
  unfold seconds_to_hms. rewrite Fh, Fm, Fs. cbn [mbind option_bind].
  destruct (0 <? s / 3600) eqn:Hpos.
  - exists (hh +:+ ":" +:+ mm +:+ ":" +:+ ss). split; [reflexivity|].
    unfold duration_from_dom. cbn [negb].
    destruct (digits_head hh (":" +:+ mm +:+ ":" +:+ ss) Dh Nh) as [-> ->].
    change (":" +:+ mm +:+ ":" +:+ ss) with (String ":" (mm +:+ String ":" ss)).
    rewrite (split_app_found ":" hh _ (digits_no_colon _ Dh)).
    rewrite (split_app_found ":" mm _ (digits_no_colon _ Dm)).
    rewrite (split_none ":" ss (digits_no_colon _ Ds)).
    rewrite Ih, Im, Is. f_equal. exact E.
  - exists (mm +:+ ":" +:+ ss). split; [reflexivity|].
    unfold duration_from_dom. cbn [negb].
    destruct (digits_head mm (":" +:+ ss) Dm Nm) as [-> ->].
    change (":" +:+ ss) with (String ":" ss).
    rewrite (split_app_found ":" mm _ (digits_no_colon _ Dm)).
    rewrite (split_none ":" ss (digits_no_colon _ Ds)).
    rewrite Im, Is. f_equal.
    apply Z.ltb_ge in Hpos. assert (s / 3600 = 0) by lia. lia.
Qed.

Lemma seconds_to_hms_read_back_witness :
  0 <= 3723 < 10 ^ 4300
  /\ exists t, seconds_to_hms (Some 3723) = Some t
               /\ duration_from_dom None (Some t) = Some 3723.
Proof.
  assert (H : 0 <= 3723 < 10 ^ 4300) by (split; vm_compute; [discriminate|reflexivity]).
  split; [exact H|]. exact (seconds_to_hms_read_back 3723 H).
Defined.

(** X3.  [seconds_to_hms] has no sign and no hour field for a negative
    argument: it writes the minutes and seconds of the argument's residue
    modulo one hour, so that -1 gives "59:59". *)
Theorem seconds_to_hms_negative (s : Z) :
  s < 0 -> seconds_to_hms (Some s) = seconds_to_hms (Some (s mod 3600)).
Proof.
  intros Hs. unfold seconds_to_hms.
  assert (H1 : (0 <? s / 3600) = false).
  { apply Z.ltb_ge. Z.div_mod_to_equations. lia. }
  assert (H2 : (0 <? s mod 3600 / 3600) = false).
  { apply Z.ltb_ge. Z.div_mod_to_equations. lia. }
  assert (H3 : (s mod 3600) mod 3600 = s mod 3600) by (Z.div_mod_to_equations; lia).
  assert (H4 : (s mod 3600) mod 60 = s mod 60) by (Z.div_mod_to_equations; lia).
  now rewrite H1, H2, H3, H4.
Qed.

Lemma seconds_to_hms_negative_witness :
  -1 < 0 /\ seconds_to_hms (Some (-1)) = Some "59:59".
Proof.
  split; [reflexivity|].
  rewrite (seconds_to_hms_negative (-1) eq_refl). reflexivity.
Defined.

(** ** Duration codes *)

Lemma digits_no_char (c : ascii) s :
  Chr.is_digit c = false -> Str.all Chr.is_digit s = true -> Str.has_char c s = false.
Proof.
  intros Hc. unfold Str.has_char. induction s as [|a r IH]; cbn [Str.all Str.any];
    [reflexivity|].
  intros [Ha Hr]%andb_true_iff. rewrite (IH Hr), orb_false_r.
  destruct (Ascii.eqb_spec c a) as [-> | _]; [congruence|reflexivity].
Qed.

Lemma iso_part_no_char (c u : ascii) v :
  iso_ok v -> Chr.is_digit c = false -> Ascii.eqb c u = false ->
  Str.has_char c (iso_part v u) = false.
Proof.
  intros Hv Hc Hu. destruct v as [n|]; [|reflexivity]. cbn [iso_part iso_ok] in *.
  unfold Str.has_char. rewrite any_app. cbn [Str.any]. rewrite Hu.
  fold (Str.has_char c (dec_of_nat n)).
  now rewrite (digits_no_char c _ Hc (dec_of_nat_digits n (proj1 Hv))).
Qed.

(** One step of [parse_iso8601_duration]: the field of unit [u] is read
    when it is there, and counts as zero when it is not. *)
Lemma iso_stage (u : ascii) v rest :
  iso_ok v -> Chr.is_digit u = false -> Str.has_char u rest = false ->
  (if Str.has_char u (iso_part v u +:+ rest)
   then match Str.split u (iso_part v u +:+ rest) with
        | p0 :: p1 :: _ => x ← py_int p0; Some (x, p1)
        | _ => None
        end
   else Some (0, iso_part v u +:+ rest)) = Some (iso_value v, rest).
Proof.
  intros Hv Hu Hr. destruct v as [n|]; cbn [iso_part iso_ok iso_value] in *.
  - pose proof (digits_no_char u _ Hu (dec_of_nat_digits n (proj1 Hv))) as Hd.
    rewrite app_assoc', app_cons, app_nil.
    assert (Hh : Str.has_char u (dec_of_nat n +:+ String u rest) = true).
    { unfold Str.has_char. rewrite any_app. cbn [Str.any].
      rewrite Ascii.eqb_refl. now rewrite orb_true_r. }
    rewrite Hh, (split_app_found u _ rest Hd), (split_none u rest Hr).
    now rewrite (py_int_dec_of_nat n Hv).
  - rewrite app_nil. now rewrite Hr.
Qed.

Lemma replace_from_app_pass (a : ascii) pat new s t :
  Str.has_char a s = false ->
  Str.replace_from O (String a pat) new (s +:+ t)
  = s +:+ Str.replace_from O (String a pat) new t.
Proof.
  unfold Str.has_char. induction s as [|c r IH]; [reflexivity|].
  cbn [Str.any]. intros [Hc Hr]%orb_false_iff. rewrite app_cons.
  cbn [Str.replace_from Str.startswith]. rewrite Hc. cbn [andb].
  now rewrite (IH Hr).
Qed.

(** X4.  [parse_iso8601_duration] reads a duration code "PT..H..M..S" in
    which each of the three fields may be missing as
    hours * 3600 + minutes * 60 + seconds, a missing field counting as
    zero. *)
Theorem parse_iso8601_duration_fields (h m s : option Z) :
  iso_ok h -> iso_ok m -> iso_ok s ->
  parse_iso8601_duration (iso_duration h m s)
  = Some (iso_value h * 3600 + iso_value m * 60 + iso_value s).
Proof.
  intros Hh Hm Hs. unfold parse_iso8601_duration, iso_duration.
  set (body := iso_part h "H" +:+ iso_part m "M" +:+ iso_part s "S").
  replace (String.eqb ("PT" +:+ body) "") with false by reflexivity.
  change (Str.replace "PT" "" ("PT" +:+ body)) with (Str.replace_from O "PT" "" body).
  assert (HP : Str.has_char "P" body = false).
  { unfold body, Str.has_char. rewrite !any_app.
    fold (Str.has_char "P" (iso_part h "H")). fold (Str.has_char "P" (iso_part m "M")).
    fold (Str.has_char "P" (iso_part s "S")).
    now rewrite !iso_part_no_char. }
  rewrite (replace_from_no_match "PT" "" body HP). unfold body.
  assert (H1 : Str.has_char "H" (iso_part m "M" +:+ iso_part s "S") = false).
  { unfold Str.has_char. rewrite any_app.
    fold (Str.has_char "H" (iso_part m "M")). fold (Str.has_char "H" (iso_part s "S")).
    now rewrite !iso_part_no_char. }
  rewrite (iso_stage "H" h _ Hh eq_refl H1). cbn [mbind option_bind].
  rewrite (iso_stage "M" m _ Hm eq_refl (iso_part_no_char "M" "S" s Hs eq_refl eq_refl)).
  cbn [mbind option_bind].
  destruct s as [n|]; cbn [iso_part iso_ok iso_value] in *; [|reflexivity].
  assert (H2 : Str.has_char "S" (dec_of_nat n +:+ "S") = true).
  { unfold Str.has_char. rewrite any_app. cbn [Str.any]. now rewrite orb_true_r. }
  rewrite H2. unfold Str.replace.
  rewrite (replace_from_app_pass "S" "" "" _ "S"
             (digits_no_char "S" _ eq_refl (dec_of_nat_digits n (proj1 Hs)))).
  change (Str.replace_from 0 "S" "" "S") with "". rewrite app_nil_r.
  now rewrite (py_int_dec_of_nat n Hs).
Qed.

Lemma parse_iso8601_duration_fields_witness :
  iso_ok (Some 1) /\ iso_ok None /\ iso_ok (Some 30)
  /\ parse_iso8601_duration "PT1H30S" = Some 3630.
Proof.
  assert (B : forall n, 0 <= n < 60 -> iso_ok (Some n)) by exact small_field.
  assert (H1 : iso_ok (Some 1)) by (apply B; lia).
  assert (H2 : iso_ok (Some 30)) by (apply B; lia).
  split; [exact H1|]. split; [exact I|]. split; [exact H2|].
  exact (parse_iso8601_duration_fields (Some 1) None (Some 30) H1 I H2).
Defined.

(** X5.  A non-empty text without the letters H, M and S is a duration of
    zero seconds for [parse_iso8601_duration], not a missing one. *)
Theorem parse_iso8601_duration_no_unit (duration_str : string) :
  duration_str <> "" ->
  Str.has_char "H" duration_str = false ->
  Str.has_char "M" duration_str = false ->
  Str.has_char "S" duration_str = false ->
  parse_iso8601_duration duration_str = Some 0.
Proof.
  intros Hne HH HM HS. unfold parse_iso8601_duration.
  destruct (String.eqb_spec duration_str "") as [E | _]; [congruence|].
  assert (N : forall c, Str.has_char c duration_str = false ->
                Str.has_char c (Str.replace "PT" "" duration_str) = false).
  { intros c Hc. apply not_true_is_false. intros G.
    apply any_replace_empty in G. unfold Str.has_char in Hc. congruence. }
  rewrite (N _ HH). cbn [mbind option_bind].
  rewrite (N _ HM). cbn [mbind option_bind].
  rewrite (N _ HS). reflexivity.
Qed.

Lemma parse_iso8601_duration_no_unit_witness :
  parse_iso8601_duration "P1D" = Some 0.
Proof.
  apply parse_iso8601_duration_no_unit; [discriminate|reflexivity..].
Defined.

(** ** Counts are not negative *)

Lemma digit_val_nonneg c : Chr.is_digit c = true -> (0 <=? Chr.digit_val c) = true.
Proof. revert c. by_chars. Qed.

Lemma dec_value_nonneg s acc :
  Str.all Chr.is_digit s = true -> 0 <= acc -> 0 <= dec_value acc s.
Proof.
  revert acc. induction s as [|c r IH]; intros acc; cbn [Str.all dec_value]; [tauto|].
  intros [Hc Hr]%andb_true_iff Ha. apply (IH _ Hr).
  pose proof (digit_val_nonneg c Hc) as Hd. apply Z.leb_le in Hd. lia.
Qed.

Lemma rne_nonneg num den : 0 <= num -> 0 < den -> 0 <= B64.rne num den.
Proof.
  intros Hn Hd. unfold B64.rne.
  pose proof (Z.div_pos num den Hn Hd).
  destruct (2 * (num mod den) <? den); [assumption|].
  destruct (den <? 2 * (num mod den)); [lia|].
  destruct (Z.even (num / den)); lia.
Qed.

Lemma round_nonneg p q x :
  0 <= p -> 0 < q -> B64.round p q = Some x -> 0 <= B64.man x.
Proof.
  intros Hp Hq. unfold B64.round.
  destruct (p =? 0); [intros [= <-]; cbn; lia|].
  set (e := Z.max _ _).
  destruct (0 <=? e) eqn:He.
  - destruct (_ || _)%bool; [discriminate|]. intros [= <-]. cbn [B64.man].
    apply rne_nonneg; [exact Hp|]. apply Z.mul_pos_pos; [exact Hq|].
    apply Z.pow_pos_nonneg; [lia|]. now apply Z.leb_le.
  - destruct (_ || _)%bool; [discriminate|]. intros [= <-]. cbn [B64.man].
    apply rne_nonneg; [|exact Hq]. apply Z.mul_nonneg_nonneg; [exact Hp|].
    apply Z.pow_nonneg. lia.
Qed.

Lemma mul_int_nonneg x c y :
  0 <= B64.man x -> 0 <= c -> B64.mul_int x c = Some y -> 0 <= B64.man y.
Proof.
  intros Hx Hc. unfold B64.mul_int.
  destruct (0 <=? B64.exp x) eqn:He.
  - apply round_nonneg; [|lia]. apply Z.mul_nonneg_nonneg; [lia|].
    apply Z.pow_nonneg. lia.
  - apply round_nonneg; [lia|]. apply Z.pow_pos_nonneg; [lia|].
    apply Z.leb_gt in He. lia.
Qed.

Lemma to_int_nonneg x : 0 <= B64.man x -> 0 <= B64.to_int x.
Proof.
  intros Hx. unfold B64.to_int. destruct (0 <=? B64.exp x) eqn:He.
  - apply Z.mul_nonneg_nonneg; [exact Hx|]. apply Z.pow_nonneg. lia.
  - apply Z.div_pos; [exact Hx|]. apply Z.pow_pos_nonneg; [lia|].
    apply Z.leb_gt in He. lia.
Qed.

Lemma py_float_nonneg g x : py_float g = Some x -> 0 <= B64.man x.
Proof.
  unfold py_float. destruct (Str.split "." g) as [|ip [|fp [|? ?]]]; try discriminate.
  - destruct (Str.all Chr.is_digit ip) eqn:A; [|discriminate].
    destruct (negb _); [|discriminate]. cbn [andb].
    apply round_nonneg; [|lia]. now apply dec_value_nonneg.
  - destruct (Str.all Chr.is_digit ip) eqn:A; [|discriminate].
    destruct (Str.all Chr.is_digit fp) eqn:B; [|discriminate].
    destruct (negb _); [|discriminate]. cbn [andb].
    apply round_nonneg.
    + apply dec_value_nonneg; [|lia]. now rewrite all_app, A, B.
    + apply Z.pow_pos_nonneg; lia.
Qed.

Lemma filter_all p s : Str.all p (Str.filter p s) = true.
Proof.
  induction s as [|c r IH]; cbn [Str.filter]; [reflexivity|].
  destruct (p c) eqn:E; [|exact IH]. cbn [Str.all]. now rewrite E, IH.
Qed.

Lemma py_int_digits_nonneg s n :
  Str.all Chr.is_digit s = true -> py_int s = Some n -> 0 <= n.
Proof.
  intros A. destruct s as [|c r]; [discriminate|].
  destruct (Nat.leb_spec (String.length (String c r)) 4300) as [L|L].
  - rewrite (py_int_digits _ A ltac:(discriminate) L). intros [= <-].
    apply (dec_value_nonneg (String c r) 0 A). lia.
  - unfold py_int. rewrite (strip_digits _ A).
    pose proof A as A'. cbn [Str.all] in A'. apply andb_true_iff in A' as [Hc _].
    rewrite (digit_no_sign c r Hc), (filter_all_id _ _ A).
    destruct (Nat.ltb_spec 4300 (String.length (String c r))); [discriminate|lia].
Qed.

(** X6.  A count returned by [parse_count_text_to_int] is never negative:
    a sign before the digits is not read. *)
Theorem parse_count_text_nonneg (text : option string) (n : Z) :
  parse_count_text_to_int text = Some n -> 0 <= n.
Proof.
  unfold parse_count_text_to_int. destruct text as [text|]; [|discriminate].
  destruct (String.eqb text ""); [discriminate|].
  set (t := Str.filter Chr.is_ascii _).
  destruct (count_search t) as [[g suf]|].
  - destruct (py_float g) as [num|] eqn:F; [|discriminate]. cbn [mbind option_bind].
    pose proof (py_float_nonneg _ _ F) as Hn.
    assert (M : forall c, 0 <= c -> B64.to_int <$> B64.mul_int num c = Some n -> 0 <= n).
    { intros c Hc. destruct (B64.mul_int num c) as [y|] eqn:E; [|discriminate].
      intros [= <-]. apply to_int_nonneg. exact (mul_int_nonneg _ _ _ Hn Hc E). }
    assert (P : Some (B64.to_int num) = Some n -> 0 <= n).
    { intros [= <-]. now apply to_int_nonneg. }
    destruct suf as [[[] [] [] [] [] [] [] []]|]; try exact P; apply M; lia.
  - destruct (String.eqb _ ""); [discriminate|].
    apply py_int_digits_nonneg, filter_all.
Qed.

Lemma parse_count_text_nonneg_witness :
  parse_count_text_to_int (Some "-5") = Some 5 /\ 0 <= 5.
Proof.
  assert (E : parse_count_text_to_int (Some "-5") = Some 5) by (vm_compute; reflexivity).
  split; [exact E|]. exact (parse_count_text_nonneg (Some "-5") 5 E).
Defined.

(** ** [save_dataset] *)

Lemma vid_keys_app l1 l2 : vid_keys (l1 ++ l2) = vid_keys l1 ++ vid_keys l2.
Proof. unfold vid_keys. apply omap_app. Qed.

Lemma no_id_falsy it : no_id it = true -> truthy (item_vid it) = false.
Proof.
  unfold no_id, item_vid, py_or.
  destruct (get it "id"); try discriminate.
  destruct (get it "video_id"); try discriminate. reflexivity.
Qed.

(** What the loop does from any state: it appends a sublist [out] of the
    items, which holds every record without identifier and one record for
    each identifier that was not saved, and it saves those identifiers. *)
Lemma save_loop_spec items : forall saved acc,
  exists out,
    foldl save_step (saved, acc) items
    = (saved ∪ list_to_set (vid_keys out), acc ++ out)
    /\ sublist out items
    /\ (forall p : item -> bool,
          (forall it, p it = true -> truthy (item_vid it) = false) ->
          List.filter p out = List.filter p items)
    /\ NoDup (vid_keys out)
    /\ (forall k, k ∈ vid_keys out -> k ∉ saved)
    /\ (forall it, it ∈ items -> truthy (item_vid it) = true ->
          key (item_vid it) ∈ saved ∪ list_to_set (vid_keys out)).
Proof.
  induction items as [|it items IH]; intros saved acc.
  - exists []. cbn. rewrite List.app_nil_r. repeat split.
    + f_equal. set_solver.
    + constructor.
    + constructor.
    + intros k Hk. inversion Hk.
    + intros it Hit. inversion Hit.
  - cbn [foldl]. unfold save_step at 2. cbn [fst snd].
    destruct (truthy (item_vid it)) eqn:T; cbn [negb].
    + destruct (bool_decide (key (item_vid it) ∈ saved)) eqn:M.
      * apply bool_decide_eq_true in M.
        destruct (IH saved acc) as (out & E & S & F & N & D & A).
        exists out. repeat split; try assumption.
        -- now apply sublist_cons.
        -- intros p Hp. cbn [List.filter].
           destruct (p it) eqn:Pi; [|now apply F].
           rewrite (Hp it Pi) in T. discriminate.
        -- intros it' [-> | Hin]%elem_of_cons Ht; [set_solver|now apply A].
      * apply bool_decide_eq_false in M.
        destruct (IH ({[key (item_vid it)]} ∪ saved) (acc ++ [it]))
          as (out & E & S & F & N & D & A).
        assert (K : vid_keys (it :: out) = key (item_vid it) :: vid_keys out).
        { unfold vid_keys. cbn [omap list_omap]. now rewrite T. }
        exists (it :: out). rewrite K. repeat split.
        -- rewrite E, <- app_assoc. cbn [app]. f_equal. set_solver.
        -- now apply sublist_skip.
        -- intros p Hp. cbn [List.filter].
           destruct (p it) eqn:Pi; [|now apply F].
           rewrite (Hp it Pi) in T. discriminate.
        -- constructor; [|exact N]. intros Hk. apply (D _ Hk). set_solver.
        -- intros k [-> | Hk]%elem_of_cons; [exact M|].
           intros Hs. apply (D _ Hk). set_solver.
        -- intros it' [-> | Hin]%elem_of_cons Ht; [set_solver|].
           specialize (A it' Hin Ht). set_solver.
    + destruct (IH saved (acc ++ [it])) as (out & E & S & F & N & D & A).
      assert (K : vid_keys (it :: out) = vid_keys out).
      { unfold vid_keys. cbn [omap list_omap]. now rewrite T. }
      exists (it :: out). rewrite K. repeat split; try assumption.
      * rewrite E, <- app_assoc. reflexivity.
      * now apply sublist_skip.
      * intros p Hp. cbn [List.filter]. rewrite (F p Hp). reflexivity.
      * intros it' [-> | Hin]%elem_of_cons Ht; [congruence|now apply A].
Qed.

Lemma save_dataset_spec items saved :
  exists out,
    save_dataset items saved = (saved ∪ list_to_set (vid_keys out), out)
    /\ sublist out items
    /\ (forall p : item -> bool,
          (forall it, p it = true -> truthy (item_vid it) = false) ->
          List.filter p out = List.filter p items)
    /\ NoDup (vid_keys out)
    /\ (forall k, k ∈ vid_keys out -> k ∉ saved)
    /\ (forall it, it ∈ items -> truthy (item_vid it) = true ->
          key (item_vid it) ∈ saved ∪ list_to_set (vid_keys out)).
Proof.
  destruct (save_loop_spec items saved []) as (out & E & H). exists out.
  split; [exact E|exact H].
Qed.

Lemma save_run_spec calls : forall saved,
  (save_run calls saved).1 = saved ∪ list_to_set (vid_keys (save_run calls saved).2)
  /\ NoDup (vid_keys (save_run calls saved).2)
  /\ (forall k, k ∈ vid_keys (save_run calls saved).2 -> k ∉ saved).
Proof.
  induction calls as [|items calls IH]; intros saved; cbn [save_run fst snd].
  - cbn. repeat split; [set_solver|constructor|]. intros k Hk. inversion Hk.
  - destruct (save_dataset_spec items saved) as (out & E & _ & _ & N & D & _).
    rewrite E. cbn [fst snd].
    destruct (IH (saved ∪ list_to_set (vid_keys out))) as (E' & N' & D').
    rewrite vid_keys_app. repeat split.
    + rewrite E'. rewrite list_to_set_app_L. set_solver.
    + apply NoDup_app. repeat split; [exact N| |exact N'].
      intros k Hk Hk'. apply (D' _ Hk'). set_solver.
    + intros k [Hk | Hk]%elem_of_app; [now apply D|].
      intros Hs. apply (D' _ Hk). set_solver.
Qed.

(** C1.  Over the calls of [save_dataset] in a run, from any set of saved
    identifiers: the set only grows; the records handed to the sink carry
    pairwise different identifiers, none of which was saved before the run
    (so a record whose identifier is saved is dropped), and every one of
    those identifiers is saved afterwards; within one call, a record with a
    new identifier is handed on and its identifier is saved. *)
Theorem save_dataset_dedup (calls : list (list item)) (SAVED_IDS : gset pykey) :
  (SAVED_IDS ⊆ (save_run calls SAVED_IDS).1)
  /\ NoDup (vid_keys (save_run calls SAVED_IDS).2)
  /\ (forall k, k ∈ vid_keys (save_run calls SAVED_IDS).2 ->
        k ∉ SAVED_IDS /\ k ∈ (save_run calls SAVED_IDS).1)
  /\ (forall items it, it ∈ items -> truthy (item_vid it) = true ->
        key (item_vid it) ∈ (save_dataset items SAVED_IDS).1
        /\ ((key (item_vid it) ∈ SAVED_IDS) \/
            (key (item_vid it) ∈ vid_keys (save_dataset items SAVED_IDS).2))).
Proof.
  destruct (save_run_spec calls SAVED_IDS) as (E & N & D).
  split; [rewrite E; set_solver|]. split; [exact N|]. split.
  - intros k Hk. split; [now apply D|]. rewrite E. set_solver.
  - intros items it Hin Ht.
    destruct (save_dataset_spec items SAVED_IDS) as (out & E' & _ & _ & _ & _ & A).
    rewrite E'. cbn [fst snd]. specialize (A it Hin Ht).
    split; [exact A|]. set_solver.
Qed.

(** C10.  In every call of [save_dataset], the records whose [id] and
    [video_id] are both absent or null are all handed to the sink, in
    their order and as often as they occur, whatever is saved; and the
    identifiers saved by the call are those of records that have one, so a
    record without identifier adds nothing to the set. *)
Theorem save_dataset_without_id (items : list item) (SAVED_IDS : gset pykey) :
  List.filter no_id (save_dataset items SAVED_IDS).2 = List.filter no_id items
  /\ (forall k, k ∈ (save_dataset items SAVED_IDS).1 ->
        (k ∈ SAVED_IDS) \/
        exists it, it ∈ items /\ truthy (item_vid it) = true /\ key (item_vid it) = k).
Proof.
  destruct (save_dataset_spec items SAVED_IDS) as (out & E & S & F & _ & _ & _).
  rewrite E. cbn [fst snd]. split; [exact (F no_id no_id_falsy)|].
  intros k [Hk | Hk]%elem_of_union; [now left|]. right.
  apply elem_of_list_to_set in Hk. unfold vid_keys in Hk.
  apply list_elem_of_omap in Hk as (it & Hin & Hit).
  exists it. split; [exact (elem_of_sublist _ _ _ Hin S)|].
  destruct (truthy (item_vid it)); [|discriminate]. split; [reflexivity|congruence].
Qed.

(** A record without identifier is written twice when it is saved twice,
    in one call or in two. *)
Example save_dataset_twice :
  let r : item := {[ "title" := PStr "t" ]} in
  (save_dataset [r; r] ∅).2 = [r; r]
  /\ (save_run [[r]; [r]] ∅).2 = [r; r]
  /\ (save_run [[r]; [r]] ∅).1 = ∅.
Proof. repeat split; vm_compute; reflexivity. Qed.

(** ** The global cap of [main] *)

Lemma channel_rows_le steps : (channel_rows steps <= List.length steps)%nat.
Proof.
  induction steps as [|[stop e] rest IH]; cbn [channel_rows List.length]; [lia|].
  destruct stop; [lia|]. destruct (kept e); lia.
Qed.

Lemma target_rows_bound global_max t :
  0 < global_max -> 0 <= target_rows global_max t <= target_bound global_max t.
Proof.
  intros Hg. destruct t as [urls|e|n|]; cbn [target_rows target_bound]; try lia.
  - unfold scrape_channel_rows, py_slice_to.
    destruct (Z.leb_spec 0 global_max) as [_|H]; [|lia].
    pose proof (channel_rows_le (take (Z.to_nat global_max) urls)) as L.
    rewrite length_take in L. lia.
  - destruct (kept e); lia.
Qed.

Lemma main_loop_stays global_max targets total_scraped :
  global_max <= total_scraped -> main_loop global_max targets total_scraped = total_scraped.
Proof.
  intros Hg. destruct targets as [|[stop t] rest]; cbn [main_loop]; [reflexivity|].
  destruct stop; [reflexivity|].
  destruct (Z.leb_spec global_max total_scraped); [reflexivity|lia].
Qed.

Lemma main_loop_bound global_max b targets : forall total_scraped,
  0 <= b -> 0 <= total_scraped ->
  Forall (fun st : bool * target => target_bound global_max st.2 <= b) targets ->
  total_scraped <= main_loop global_max targets total_scraped
                <= Z.max total_scraped (global_max - 1 + b).
Proof.
  induction targets as [|[stop t] rest IH]; intros total Hb Ht Hall; cbn [main_loop];
    [lia|].
  destruct stop; [lia|].
  destruct (Z.leb_spec global_max total) as [Hge|Hlt]; [lia|].
  inversion Hall as [|? ? Hb1 Hrest]; subst. cbn [snd] in Hb1.
  pose proof (target_rows_bound global_max t ltac:(lia)) as Hr.
  specialize (IH (total + target_rows global_max t) Hb ltac:(lia) Hrest). lia.
Qed.

(** C3, as the code has it.  [main] starts a target only while
    [total_scraped] is below the global cap, and never again once the cap
    is reached; a started target adds all its rows.  So the final total is
    bounded by the cap minus one plus the most that one target can add (a
    channel adds up to [maxResults] rows again), not by the cap. *)
Theorem main_total_bound (global_max b : Z) (all_urls search_terms : list (bool * target))
    (stop : bool) :
  0 <= b ->
  Forall (fun st : bool * target => target_bound global_max st.2 <= b)
    (all_urls ++ search_terms) ->
  0 <= main_total global_max all_urls stop search_terms
    <= Z.max 0 (global_max - 1 + b)
  /\ (forall targets total_scraped,
        global_max <= total_scraped ->
        main_loop global_max targets total_scraped = total_scraped).
Proof.
  intros Hb [H1 H2]%Forall_app. split; [|intros; now apply main_loop_stays].
  unfold main_total.
  pose proof (main_loop_bound global_max b all_urls 0 Hb ltac:(lia) H1) as B1.
  destruct (_ && _)%bool; [|lia].
  assert (H0 : 0 <= main_loop global_max all_urls 0) by lia.
  pose proof (main_loop_bound global_max b search_terms _ Hb H0 H2) as B2. lia.
Qed.

Lemma main_total_bound_witness :
  0 <= 2
  /\ Forall (fun st : bool * target => target_bound 2 st.2 <= 2)
       ([(false, Video (Row true));
         (false, Channel [(false, Row true); (false, Row true); (false, Row true)])]
        ++ [])
  /\ 0 <= main_total 2
            [(false, Video (Row true));
             (false, Channel [(false, Row true); (false, Row true); (false, Row true)])]
            false []
       <= Z.max 0 (2 - 1 + 2).
Proof.
  assert (Hb : 0 <= 2) by lia.
  assert (Hf : Forall (fun st : bool * target => target_bound 2 st.2 <= 2)
                 ([(false, Video (Row true));
                   (false, Channel [(false, Row true); (false, Row true); (false, Row true)])]
                  ++ [])).
  { repeat constructor; cbn; lia. }
  split; [exact Hb|]. split; [exact Hf|].
  exact (proj1 (main_total_bound 2 2 _ [] false Hb Hf)).
Defined.

(** C3, counterexample to "the total never exceeds the global cap": with a
    cap of 2, a video that gives one row and then a channel with three
    extractable videos give three rows, the channel being capped at
    [maxResults] = 2 on its own. *)
Lemma main_total_exceeds_cap :
  main_total 2
    [(false, Video (Row true));
     (false, Channel [(false, Row true); (false, Row true); (false, Row true)])]
    false []
  = 3.
Proof. vm_compute. reflexivity. Qed.

(** ** Harvesting candidate URLs *)

Section HarvestFacts.
Context `{UrlLib}.





End HarvestFacts.








